(** * Contrail Windows docker driver: the HNS wrapper and the driver core

    A shallow embedding of package [hns] (the wrapper around the Host
    Networking Service that creates, deletes and looks up local networks)
    and of the lifecycle operations of the driver core, with the properties
    of the design document stated over them.

    The HNS wrapper talks to three things it does not own: the [hcsshim]
    requests, the adapter wait of [win_networking], and the clock of package
    [time].  They are modelled as an oracle: a record of functions that
    decide, from the world reached so far, what each call answers and how
    long it takes.  A world is the clock reading and the list of calls made
    up to now, so every property is stated for all behaviours of the
    backend by quantifying over the oracle.  Logging is left out: no
    property depends on it. *)

From Stdlib Require Import ZArith Lia Bool Ascii String List.
From stdpp Require Import base option list strings gmap fin_maps.

Local Open Scope Z_scope.
Local Open Scope string_scope.

(** ** Go strings *)

Module strings.

(** [strings.HasPrefix]: [p] is an initial segment of [s]. *)
Fixpoint HasPrefix (s p : string) {struct p} : bool :=
  match p, s with
  | EmptyString, _ => true
  | String c p', String d s' => Ascii.eqb c d && HasPrefix s' p'
  | String _ _, EmptyString => false
  end.

(** [strings.Contains]: [substr] occurs somewhere within [s]. *)
Fixpoint Contains (s substr : string) : bool :=
  HasPrefix s substr ||
  match s with
  | EmptyString => false
  | String _ s' => Contains s' substr
  end.

(** What "contains the substring" means. *)
Definition occurs_in (substr s : string) : Prop :=
  exists pre post : string, s = String.append pre (String.append substr post).

(** ASCII lower-casing, the restriction of [strings.ToLower] to messages
    of 7-bit characters; used to run the model on concrete messages. *)
Definition lower_ascii (c : ascii) : ascii :=
  let n := N_of_ascii c in
  if ((65 <=? n) && (n <=? 90))%N then ascii_of_N (n + 32) else c.

Fixpoint ToLowerASCII (s : string) : string :=
  match s with
  | EmptyString => EmptyString
  | String c s' => String (lower_ascii c) (ToLowerASCII s')
  end.

End strings.

(** ** Constants of package [common]

    [CreateHNSNetwork] hands both time constants to package [time] as they
    are ([time.Sleep delay], [time.Since start < timeout]), so the clock of
    the model counts in the unit of these constants. *)

Module common.

(** Delay between consecutive attempts to create an HNS network. *)
Definition CreateHNSNetworkInitialRetryDelay : Z := 5 * 1000.

(** Maximum waiting time of [CreateHNSNetwork] when retrying. *)
Definition CreateHNSNetworkTimeout : Z := 90 * 1000.

Definition HNSTransparentInterfaceName : string := "vEthernet (HNSTransparent)".

Definition RootNetworkName : string := "ContrailRootNetwork".

End common.

(** ** Data of package [hns] *)

(** Go's [error] values as seen by this package: either a value built
    elsewhere (by [hcsshim], [win_networking] or [encoding/json]), known by
    its message, or the package's own [*recoverableError] wrapper.  The type
    [recoverableError] is not exported, so no backend can return one. *)
Inductive error : Type :=
| foreignError (msg : string)
| recoverableError (inner : error).

(** [func (e *recoverableError) Error() string] and the foreign messages. *)
Fixpoint Error (e : error) : string :=
  match e with
  | foreignError msg => msg
  | recoverableError inner => Error inner
  end.

(** The type assertion of [err] to a pointer to [recoverableError]. *)
Definition asRecoverable (e : error) : option error :=
  match e with
  | recoverableError inner => Some inner
  | foreignError _ => None
  end.

Record Subnet := { AddressPrefix : string; GatewayAddress : string }.

(** The fields of [hcsshim.HNSNetwork] the wrapper reads or writes. *)
Record HNSNetwork := {
  Id : string;
  Name : string;
  Type_ : string;
  NetworkAdapterName : string;
  Subnets : list Subnet
}.

(** A Go pair [(value, error)] of which exactly one side is set. *)
Inductive result (A : Type) : Type :=
| Ok (a : A)
| Err (e : error).
Arguments Ok {A} a.
Arguments Err {A} e.

(** What a backend answers: a value, or a foreign error with its message. *)
Inductive response (A : Type) : Type :=
| Done (a : A)
| Failed (msg : string).
Arguments Done {A} a.
Arguments Failed {A} msg.

(** ** The world outside the package *)

(** The calls that leave the package. *)
Inductive Call : Type :=
| NetworkRequest (method path request : string)      (* hcsshim.HNSNetworkRequest *)
| ListNetworkRequest (method path request : string)  (* hcsshim.HNSListNetworkRequest *)
| WaitIP (adapter : string)             (* win_networking.WaitForValidIPReacquisition *)
| Sleep (d : Z).                        (* time.Sleep *)

Record World := { clock : Z; trace : list Call }.

(** The oracle.  The answers may depend on everything that happened
    before, which is how a backend with a state of its own, or one that
    changes with time, is covered.  [b_elapse w c] is the time that passes
    from the moment call [c] is made in world [w] until the package makes its
    next call or reads the clock. *)
Record Backend := {
  b_network : World -> string -> string -> string -> response HNSNetwork;
  b_list : World -> string -> string -> string -> response (list HNSNetwork);
  b_wait : World -> string -> option string;
  b_elapse : World -> Call -> Z
}.

(** Time does not run backwards, and [time.Sleep d] pauses for at least
    [d]. *)
Definition timely (B : Backend) : Prop :=
  (forall w c, 0 <= b_elapse B w c) /\
  (forall w d, d <= b_elapse B w (Sleep d)).

(** 64-bit signed integers: [int] on the target and [time.Duration]. *)
Definition min_int64 : Z := - 2 ^ 63.
Definition max_int64 : Z := 2 ^ 63 - 1.

Definition wrap64 (z : Z) : Z := (z + 2 ^ 63) mod 2 ^ 64 - 2 ^ 63.

(** [Time.Sub] saturates at the ends of [Duration]. *)
Definition saturate64 (z : Z) : Z := Z.max min_int64 (Z.min max_int64 z).

(** ** A state monad over worlds

    Every function of the package that reaches the backend is a function
    from the world before to a result and the world after. *)

Definition M (A : Type) : Type := World -> A * World.

Definition ret {A} (a : A) : M A := fun w => (a, w).

Definition bind {A B} (m : M A) (k : A -> M B) : M B :=
  fun w => let (a, w') := m w in k a w'.

Notation "'do' x <- m ; k" := (bind m (fun x => k))
  (at level 10, x name, m at level 100, k at level 200,
   format "'[v' 'do'  x  <-  m ; '/' k ']'").

Section Package.

(** [strings.ToLower] and [json.Marshal] belong to Go's library. *)
Variable ToLower : string -> string.
Variable Marshal : HNSNetwork -> response string.
Variable B : Backend.

(** Making call [c]: the clock advances and the call is recorded.  The
    calls are taken to return; [hcsshim] answers a served request with a
    network that is not [nil]. *)
Definition perform (c : Call) (w : World) : World :=
  {| clock := clock w + b_elapse B w c; trace := trace w ++ [c] |}.

Definition HNSNetworkRequest (method path request : string) : M (response HNSNetwork) :=
  fun w => (b_network B w method path request,
            perform (NetworkRequest method path request) w).

Definition HNSListNetworkRequest (method path request : string)
  : M (response (list HNSNetwork)) :=
  fun w => (b_list B w method path request,
            perform (ListNetworkRequest method path request) w).

Definition WaitForValidIPReacquisition (adapter : string) : M (option error) :=
  fun w => (foreignError <$> b_wait B w adapter, perform (WaitIP adapter) w).

Definition time_Now : M Z := fun w => (clock w, w).

Definition time_Since (t : Z) : M Z := fun w => (saturate64 (clock w - t), w).

Definition time_Sleep (d : Z) : M unit := fun w => (tt, perform (Sleep d) w).

(** *** Lookups *)

Definition ListHNSNetworks : M (result (list HNSNetwork)) :=
  do r <- HNSListNetworkRequest "GET" "" "";
  match r with
  | Failed msg => ret (Err (foreignError msg))
  | Done nets => ret (Ok nets)
  end.

Definition GetHNSNetwork (hnsID : string) : M (result HNSNetwork) :=
  do r <- HNSNetworkRequest "GET" hnsID "";
  match r with
  | Failed msg => ret (Err (foreignError msg))
  | Done net => ret (Ok net)
  end.

(** The loop of [GetHNSNetworkByName]: the first network so named, or
    [nil]. *)
Fixpoint firstNamed (name : string) (nets : list HNSNetwork) : option HNSNetwork :=
  match nets with
  | [] => None
  | n :: rest => if String.eqb (Name n) name then Some n else firstNamed name rest
  end.

Definition GetHNSNetworkByName (name : string) : M (result (option HNSNetwork)) :=
  do r <- HNSListNetworkRequest "GET" "" "";
  match r with
  | Failed msg => ret (Err (foreignError msg))
  | Done nets => ret (Ok (firstNamed name nets))
  end.

(** *** Deleting a network *)

(** The loop that sets [adapterStillInUse]. *)
Fixpoint adapterStillInUse (toDelete : HNSNetwork) (networks : list HNSNetwork) : bool :=
  match networks with
  | [] => false
  | network :: rest =>
      if negb (String.eqb (Id network) (Id toDelete)) &&
         String.eqb (NetworkAdapterName network) (NetworkAdapterName toDelete)
      then true
      else adapterStillInUse toDelete rest
  end.

Definition DeleteHNSNetwork (hnsID : string) : M (option error) :=
  do g <- GetHNSNetwork hnsID;
  match g with
  | Err err => ret (Some err)
  | Ok toDelete =>
      do l <- ListHNSNetworks;
      match l with
      | Err err => ret (Some err)
      | Ok networks =>
          let inUse := adapterStillInUse toDelete networks in
          do d <- HNSNetworkRequest "DELETE" hnsID "";
          match d with
          | Failed msg => ret (Some (foreignError msg))
          | Done _ =>
              if negb inUse then
                do e <- WaitForValidIPReacquisition (NetworkAdapterName toDelete);
                match e with
                | Some err => ret (Some err)
                | None => ret None
                end
              else ret None
          end
      end
  end.

(** *** Creating a network *)

(** The signature of the transient failure. *)
Definition transientSignature (errMsg : string) : bool :=
  strings.Contains errMsg "hns failed" && strings.Contains errMsg "unspecified error".

Definition tryCreateHNSNetwork (config : string) : M (result string) :=
  do r <- HNSNetworkRequest "POST" "" config;
  match r with
  | Failed msg =>
      let err := foreignError msg in
      let errMsg := ToLower (Error err) in
      if transientSignature errMsg
      then ret (Err (recoverableError err))
      else ret (Err err)
  | Done response =>
      do e <- WaitForValidIPReacquisition common.HNSTransparentInterfaceName;
      match e with
      | Some err =>
          do deleteErr <- DeleteHNSNetwork (Id response);
          match deleteErr with
          | Some de => ret (Err de)
          | None => ret (Err (recoverableError err))
          end
      | None => ret (Ok (Id response))
      end
  end.

(** The [for] loop of [CreateHNSNetwork].  [fuel] bounds the number of
    passes; [None] means the bound was reached before the loop left. *)
Fixpoint retryLoop (fuel : nat) (config : string) (creatingStart delay : Z)
    (w : World) : option (result string * World) :=
  match fuel with
  | O => None
  | S fuel' =>
      let (r, w1) := tryCreateHNSNetwork config w in
      match r with
      | Ok id => Some (Ok id, w1)
      | Err err =>
          match asRecoverable err with
          | Some inner =>
              let (elapsed, w2) := time_Since creatingStart w1 in
              if (elapsed <? common.CreateHNSNetworkTimeout)%Z then
                let (_, w3) := time_Sleep delay w2 in
                retryLoop fuel' config creatingStart (wrap64 (delay * 2)) w3
              else Some (Err inner, w2)
          | None => Some (Err err, w1)
          end
      end
  end.

Definition CreateHNSNetwork (fuel : nat) (configuration : HNSNetwork)
    (w : World) : option (result string * World) :=
  match Marshal configuration with
  | Failed msg => Some (Err (foreignError msg), w)
  | Done configBytes =>
      let delay := common.CreateHNSNetworkInitialRetryDelay in
      let (creatingStart, w0) := time_Now w in
      retryLoop fuel configBytes creatingStart delay w0
  end.

End Package.

Arguments perform B c w : simpl never.

(** The calls made on the way from world [w] to world [w']. *)
Definition calls_made (w w' : World) : list Call :=
  drop (length (trace w)) (trace w').

(** The pauses among a list of calls, in order. *)
Fixpoint sleeps (cs : list Call) : list Z :=
  match cs with
  | [] => []
  | Sleep d :: rest => d :: sleeps rest
  | _ :: rest => sleeps rest
  end.

(** The creation requests among a list of calls. *)
Definition isCreate (c : Call) : bool :=
  match c with
  | NetworkRequest method _ _ => String.eqb method "POST"
  | _ => false
  end.

Definition attempts (cs : list Call) : nat := length (filter (fun c => isCreate c = true) cs).

Definition isWaitIP (c : Call) : bool :=
  match c with WaitIP _ => true | _ => false end.

(** A readiness gate after every failed creation request: reading the calls
    in order, no creation request follows another one unless an adapter wait
    was made in between.  [pending] tells whether a creation request is
    still waiting for its gate. *)
Fixpoint gatedRetries (pending : bool) (cs : list Call) : bool :=
  match cs with
  | [] => true
  | c :: rest =>
      if isCreate c then negb pending && gatedRetries true rest
      else if isWaitIP c then gatedRetries false rest
      else gatedRetries pending rest
  end.

(** Calls that are neither a pause nor a creation request. *)
Definition plain (c : Call) : Prop :=
  match c with
  | Sleep _ => False
  | _ => isCreate c = false
  end.

(** [w'] is reached from [w] by making calls: the trace grows at its end. *)
Definition reaches (w w' : World) : Prop :=
  exists cs, trace w' = (trace w ++ cs)%list.

(** The delay of pass [k] when nothing wraps: the initial delay doubled [k]
    times. *)
Definition nthDelay (k : nat) : Z :=
  common.CreateHNSNetworkInitialRetryDelay * 2 ^ Z.of_nat k.

(** What a pass that leaves the loop returns. *)
Definition leaving (r : result string) : result string :=
  match r with
  | Ok id => Ok id
  | Err err =>
      match asRecoverable err with
      | Some inner => Err inner
      | None => Err err
      end
  end.

(** ** Simulated backends

    Small oracles to run the package on. *)

Module sim.

(** Calls take no time, and a pause lasts exactly as long as asked. *)
Definition elapse (w : World) (c : Call) : Z :=
  match c with
  | Sleep d => Z.max d 0
  | _ => 0
  end.

Definition transientMessage : string := "HNS failed with error : Unspecified error".

Definition net (id adapter : string) : HNSNetwork :=
  {| Id := id; Name := "Contrail:" ++ id; Type_ := "transparent";
     NetworkAdapterName := adapter; Subnets := [] |}.

Definition marshal (configuration : HNSNetwork) : response string :=
  Done (Name configuration).

Definition start : World := {| clock := 0; trace := [] |}.

(** Every creation request meets the transient failure. *)
Definition alwaysTransient : Backend :=
  {| b_network := fun _ _ _ _ => Failed transientMessage;
     b_list := fun _ _ _ _ => Done [];
     b_wait := fun _ _ => None;
     b_elapse := elapse |}.

(** The first creation request meets the transient failure, the later
    ones are served. *)
Definition transientOnce : Backend :=
  {| b_network := fun w method _ _ =>
       if String.eqb method "POST" && negb (existsb isCreate (trace w))
       then Failed transientMessage
       else Done (net "net-1" "Ethernet0");
     b_list := fun _ _ _ _ => Done [net "net-1" "Ethernet0"];
     b_wait := fun _ _ => None;
     b_elapse := elapse |}.

(** Creation requests are refused for a reason that is not transient. *)
Definition refusing : Backend :=
  {| b_network := fun _ _ _ _ => Failed "HNS failed with error : Access is denied";
     b_list := fun _ _ _ _ => Done [];
     b_wait := fun _ _ => None;
     b_elapse := elapse |}.


(** Requests are served and the adapter is ready at once. *)
Definition healthy (nets : list HNSNetwork) : Backend :=
  {| b_network := fun _ _ path _ =>
       match find (fun n => String.eqb (Id n) path) nets with
       | Some n => Done n
       | None =>
           if String.eqb path "" then Done (net "net-1" "Ethernet0")
           else Failed "HNS failed with error : Element not found"
       end;
     b_list := fun _ _ _ _ => Done nets;
     b_wait := fun _ _ => None;
     b_elapse := elapse |}.

End sim.

(** ** The driver core

    The handlers of the lifecycle requests (package [driver_core] and the
    plugin server in front of it) are not among the sources at hand; only
    their integration test is.  The operations below follow section 4.1 of
    the design document. *)

Module core.

(** Modelled from the spec: the error taxonomy of section 7, which the
    absent handlers return.  [RecoverableInfra] never leaves the
    provisioner and is not part of it. *)
Inductive DriverError : Type :=
| InvalidRequest
| NotFound
| BackendError (cause : string).

(** Modelled from the spec: a subnet of a virtual network, "each with a
    CIDR and default gateway" (section 3). *)
Record SubnetInfo := { CIDR : string; DefaultGateway : string }.

(** Modelled from the spec: the [VirtualNetwork] of section 3, absent from
    the sources; it has one or more subnets. *)
Record VirtualNetwork := {
  vnTenant : string;
  vnName : string;
  vnFirstSubnet : SubnetInfo;
  vnMoreSubnets : list SubnetInfo
}.

(** Modelled from the spec: the [ManagedNetwork] mapping entity of
    section 3, [runtimeNetworkID -> localNetworkID -> sourceVirtualNetwork].
    The runtime ID is the key of the store. *)
Record ManagedNetwork := {
  localNetworkID : string;
  sourceVirtualNetwork : VirtualNetwork
}.

(** Modelled from the spec: what a port answers, after the taxonomy of
    section 7: the value asked for, "no such resource", or any other
    failure of the backend. *)
Inductive answer (A : Type) : Type :=
| Served (a : A)
| Missing
| Broken (cause : string).
Arguments Served {A} a.
Arguments Missing {A}.
Arguments Broken {A} cause.

(** Modelled from the spec: the calls that reach a backend port, of the
    capabilities listed in section 4.3 those on networks and the lookup of
    a local endpoint. *)
Inductive PortCall : Type :=
| ControllerGetNetwork (tenant name : string)
| LocalNetworkCreate (runtimeNetworkID : string) (subnet : SubnetInfo)
| LocalNetworkDelete (localID : string)
| LocalEndpointGet (runtimeEndpointID : string).

(** Modelled from the spec: the backend ports of section 4.3, whose
    implementations are external.  Each answer may depend on the calls
    made before. *)
Record Ports := {
  getNetwork : list PortCall -> string -> string -> answer VirtualNetwork;
  createLocalNetwork : list PortCall -> string -> SubnetInfo -> answer string;
  deleteLocalNetwork : list PortCall -> string -> answer unit;
  getLocalEndpoint : list PortCall -> string -> answer string
}.

(** Modelled from the spec: the mapping store that the core owns
    (section 5), together with the calls it has made on its ports. *)
Record Store := {
  networks : gmap string ManagedNetwork;
  calls : list PortCall
}.

Definition called (c : PortCall) (st : Store) : Store :=
  {| networks := networks st; calls := calls st ++ [c] |}.

Definition setNetworks (m : gmap string ManagedNetwork) (st : Store) : Store :=
  {| networks := m; calls := calls st |}.

(** Modelled from the spec: the request of [CreateNetwork], reduced to the
    runtime's network ID and the option map in which tenant and network
    name travel (keys "tenant" and "network" in the driver test). *)
Record CreateNetworkRequest := {
  NetworkID : string;
  Options : gmap string string
}.

Section Handlers.

Variable P : Ports.

(** Modelled from the spec: [CreateNetwork] of section 4.1, whose code
    is absent.  (1) both tenant and network name must be present in the
    option map, else [InvalidRequest] before any backend is touched;
    (2) the virtual network is resolved through the controller,
    [NotFound] if absent; (3) the local network is created with the
    first subnet of the resolved network; (4) the mapping is recorded
    only after step 3 succeeded. *)
Definition CreateNetwork (req : CreateNetworkRequest) (st : Store)
  : option DriverError * Store :=
  match Options req !! "tenant", Options req !! "network" with
  | Some tenant, Some networkName =>
      let st1 := called (ControllerGetNetwork tenant networkName) st in
      match getNetwork P (calls st) tenant networkName with
      | Missing => (Some NotFound, st1)
      | Broken cause => (Some (BackendError cause), st1)
      | Served vn =>
          let subnet := vnFirstSubnet vn in
          let st2 := called (LocalNetworkCreate (NetworkID req) subnet) st1 in
          match createLocalNetwork P (calls st1) (NetworkID req) subnet with
          | Served localID =>
              let managed :=
                {| localNetworkID := localID; sourceVirtualNetwork := vn |} in
              (None, setNetworks (<[NetworkID req := managed]> (networks st2)) st2)
          | Missing => (Some NotFound, st2)
          | Broken cause => (Some (BackendError cause), st2)
          end
      end
  | _, _ => (Some InvalidRequest, st)
  end.

(** Modelled from the spec: [DeleteNetwork] of section 4.1, whose code
    is absent.  Look up the mapping; if absent, success.  Otherwise
    delete the local network, ignoring "not found" from the backend,
    then drop the mapping.  Any other backend failure is surfaced. *)
Definition DeleteNetwork (runtimeNetworkID : string) (st : Store)
  : option DriverError * Store :=
  match networks st !! runtimeNetworkID with
  | None => (None, st)
  | Some managed =>
      let st1 := called (LocalNetworkDelete (localNetworkID managed)) st in
      match deleteLocalNetwork P (calls st) (localNetworkID managed) with
      | Served _ | Missing =>
          (None, setNetworks (delete runtimeNetworkID (networks st1)) st1)
      | Broken cause => (Some (BackendError cause), st1)
      end
  end.


(** Modelled from the spec: [Leave] of section 4.1, whose code is absent:
    "no-op success; network teardown is driven entirely by DeleteEndpoint".
    It consults no port and leaves the store as it is. *)
Definition Leave (runtimeEndpointID : string) (st : Store)
  : option DriverError * Store :=
  (None, st).

End Handlers.

(** Ports for running the handlers: the controller knows one network, the
    local repositories know the networks and endpoints listed. *)
Definition testNetwork : VirtualNetwork :=
  {| vnTenant := "agatka"; vnName := "test_net";
     vnFirstSubnet := {| CIDR := "1.2.3.4/24"; DefaultGateway := "1.2.3.1" |};
     vnMoreSubnets := [] |}.

Definition simPorts (localNets localEndpoints : list string) : Ports :=
  {| getNetwork := fun _ tenant name =>
       if String.eqb tenant "agatka" && String.eqb name "test_net"
       then Served testNetwork else Missing;
     createLocalNetwork := fun _ id _ => Served ("hns-" ++ id);
     deleteLocalNetwork := fun _ id =>
       if existsb (String.eqb id) localNets then Served tt else Missing;
     getLocalEndpoint := fun _ id =>
       if existsb (String.eqb id) localEndpoints then Served ("hns-ep-" ++ id)
       else Missing |}.

Definition emptyStore : Store := {| networks := ∅; calls := [] |}.

End core.

(** ** The root network *)

Section RootNetwork.

Variable ToLower : string -> string.
Variable Marshal : HNSNetwork -> response string.
Variable B : Backend.

(** The configuration that [InitRootHNSNetwork] builds; the fields it does
    not set keep Go's zero value. *)
Definition rootConfiguration (nameOfAdapterToUse : string) : HNSNetwork :=
  {| Id := "";
     Name := common.RootNetworkName;
     Type_ := "transparent";
     NetworkAdapterName := nameOfAdapterToUse;
     Subnets := [ {| AddressPrefix := "0.0.0.0/24"; GatewayAddress := "" |} ] |}.

(** [InitRootHNSNetwork]; [fuel] is handed to [CreateHNSNetwork]. *)
Definition InitRootHNSNetwork (fuel : nat) (nameOfAdapterToUse : string) (w : World)
  : option (option error * World) :=
  let (e, w1) := WaitForValidIPReacquisition B nameOfAdapterToUse w in
  match e with
  | Some err => Some (Some err, w1)
  | None =>
      let (r, w2) := GetHNSNetworkByName B common.RootNetworkName w1 in
      match r with
      | Err err => Some (Some err, w2)
      | Ok None =>
          match CreateHNSNetwork ToLower Marshal B fuel
                  (rootConfiguration nameOfAdapterToUse) w2 with
          | None => None
          | Some (Err err, w3) => Some (Some err, w3)
          | Some (Ok rootNetID, w3) => Some (None, w3)
          end
      | Ok (Some rootNetwork) => Some (None, w2)
      end
  end.

End RootNetwork.

(** The sum of the pauses of a list of calls. *)
Definition totalPause (cs : list Call) : Z := fold_right Z.add 0 (sleeps cs).

(** Creation requests are served with a network named after the request,
    and the adapter is ready at once. *)
Definition servedAtOnce : Backend :=
  {| b_network := fun _ _ _ request => Done (sim.net request "Ethernet0");
     b_list := fun _ _ _ _ => Done [];
     b_wait := fun _ _ => None;
     b_elapse := sim.elapse |}.

(** The first creation request meets the transient failure, the later
    ones are refused for a reason that is not transient. *)
Definition transientThenRefused : Backend :=
  {| b_network := fun w method _ _ =>
       if String.eqb method "POST" && negb (existsb isCreate (trace w))
       then Failed sim.transientMessage
       else Failed "HNS failed with error : Access is denied";
     b_list := fun _ _ _ _ => Done [];
     b_wait := fun _ _ => None;
     b_elapse := sim.elapse |}.


(** The first creation request meets the transient failure; the later
    ones are served, but the adapter never comes back. *)
Definition transientThenAdapterDown : Backend :=
  {| b_network := fun w method _ _ =>
       if String.eqb method "POST" && negb (existsb isCreate (trace w))
       then Failed sim.transientMessage
       else Done (sim.net "net-1" "Ethernet0");
     b_list := fun _ _ _ _ => Done [sim.net "net-1" "Ethernet0"];
     b_wait := fun _ _ => Some "timeout waiting for a valid IP address";
     b_elapse := sim.elapse |}.

(** A marshaller that writes down every field of the configuration it is
    given, the subnets by their address prefixes. *)
Definition marshalFields (configuration : HNSNetwork) : response string :=
  Done (Name configuration ++ "|" ++ Type_ configuration ++ "|"
        ++ NetworkAdapterName configuration ++ "|"
        ++ String.concat "," (map AddressPrefix (Subnets configuration))).


(** ** Endpoints *)

Module endpoints.

(** The fields of [hcsshim.HNSEndpoint] that the wrapper and its tests
    use. *)
Record HNSEndpoint := {
  Id : string;
  Name : string;
  VirtualNetwork : string;
  IPAddress : string;
  MacAddress : string
}.

(** The calls that leave the package for endpoints. *)
Inductive Call : Type :=
| EndpointRequest (method path request : string)   (* hcsshim.HNSEndpointRequest *)
| ListEndpointRequest.                              (* hcsshim.HNSListEndpointRequest *)

(** The oracle for endpoints: each answer may depend on the calls made
    before. *)
Record Backend := {
  b_endpoint : list Call -> string -> string -> string -> response HNSEndpoint;
  b_listEndpoints : list Call -> response (list HNSEndpoint)
}.

Section Package.

(** [json.Marshal] on an endpoint configuration. *)
Variable Marshal : HNSEndpoint -> response string.
Variable B : Backend.

Definition HNSEndpointRequest (method path request : string) (h : list Call)
  : response HNSEndpoint * list Call :=
  (b_endpoint B h method path request, (h ++ [EndpointRequest method path request])%list).

Definition HNSListEndpointRequest (h : list Call)
  : response (list HNSEndpoint) * list Call :=
  (b_listEndpoints B h, (h ++ [ListEndpointRequest])%list).


Definition DeleteHNSEndpoint (endpointID : string) (h : list Call)
  : option error * list Call :=
  let (r, h1) := HNSEndpointRequest "DELETE" endpointID "" h in
  match r with
  | Failed msg => (Some (foreignError msg), h1)
  | Done _ => (None, h1)
  end.

Definition GetHNSEndpoint (endpointID : string) (h : list Call)
  : result HNSEndpoint * list Call :=
  let (r, h1) := HNSEndpointRequest "GET" endpointID "" h in
  match r with
  | Failed msg => (Err (foreignError msg), h1)
  | Done endpoint => (Ok endpoint, h1)
  end.

(** The loop of [GetHNSEndpointByName]. *)
Fixpoint firstNamed (name : string) (eps : list HNSEndpoint) : option HNSEndpoint :=
  match eps with
  | [] => None
  | ep :: rest => if String.eqb (Name ep) name then Some ep else firstNamed name rest
  end.

Definition GetHNSEndpointByName (name : string) (h : list Call)
  : result (option HNSEndpoint) * list Call :=
  let (r, h1) := HNSListEndpointRequest h in
  match r with
  | Failed msg => (Err (foreignError msg), h1)
  | Done eps => (Ok (firstNamed name eps), h1)
  end.

Definition ListHNSEndpoints (h : list Call) : result (list HNSEndpoint) * list Call :=
  let (r, h1) := HNSListEndpointRequest h in
  match r with
  | Failed msg => (Err (foreignError msg), h1)
  | Done endpoints => (Ok endpoints, h1)
  end.

(** The loop of [ListHNSEndpointsOfNetwork]: [epsInNetwork] grows by
    [append]. *)
Fixpoint collectOfNetwork (netID : string) (eps epsInNetwork : list HNSEndpoint)
  : list HNSEndpoint :=
  match eps with
  | [] => epsInNetwork
  | ep :: rest =>
      if String.eqb (VirtualNetwork ep) netID
      then collectOfNetwork netID rest (epsInNetwork ++ [ep])%list
      else collectOfNetwork netID rest epsInNetwork
  end.

Definition ListHNSEndpointsOfNetwork (netID : string) (h : list Call)
  : result (list HNSEndpoint) * list Call :=
  let (r, h1) := ListHNSEndpoints h in
  match r with
  | Err err => (Err err, h1)
  | Ok eps => (Ok (collectOfNetwork netID eps []), h1)
  end.

End Package.

(** An endpoint store to run the package on: the listing shows [eps], a
    lookup or a deletion finds an endpoint by its [Id], a creation is
    served with the [Id] "new-endpoint". *)
Definition simBackend (eps : list HNSEndpoint) : Backend :=
  {| b_endpoint := fun _ method path _ =>
       if String.eqb method "POST"
       then Done {| Id := "new-endpoint"; Name := ""; VirtualNetwork := "";
                    IPAddress := ""; MacAddress := "" |}
       else match find (fun ep => String.eqb (Id ep) path) eps with
            | Some ep => Done ep
            | None => Failed "HNS failed with error : Element not found"
            end;
     b_listEndpoints := fun _ => Done eps |}.

Definition simEndpoint (id name netID : string) : HNSEndpoint :=
  {| Id := id; Name := name; VirtualNetwork := netID;
     IPAddress := ""; MacAddress := "" |}.

End endpoints.

(** ** The Hyper-V forwarding extension *)

Module hyperv_extension.

Record hyperVvRouterForwardingExtension := {
  vswitchName : string;
  extensionName : string
}.

Definition hyperVvRouterForwardingExtensionName : string := "vRouter forwarding extension".

Definition NewHyperVvRouterForwardingExtension (vswitchName : string)
  : hyperVvRouterForwardingExtension :=
  {| vswitchName := vswitchName;
     extensionName := hyperVvRouterForwardingExtensionName |}.

(** [common.CallPowershell], which is outside the sources: what a command
    line prints on standard output and on standard error, and the error it
    ends with, given the command lines run before. *)
Definition Powershell : Type :=
  list (list string) -> list string -> string * string * option string.

(** The double quote, and [fmt.Sprintf] with a quoted [%s]. *)
Definition doubleQuote : string := String "034"%char EmptyString.

Definition quoted (s : string) : string := doubleQuote ++ s ++ doubleQuote.

(** The loop of [callOnSwitch] that appends the optional arguments. *)
Fixpoint appendEach (c optionals : list string) : list string :=
  match optionals with
  | [] => c
  | opt :: rest => appendEach (c ++ [opt])%list rest
  end.

(** The command line that [callOnSwitch] ends up with. *)
Definition commandLine (hvvr : hyperVvRouterForwardingExtension) (command : string)
    (optionals : list string) : list string :=
  command :: "-VMSwitchName" :: quoted (vswitchName hvvr)
          :: "-Name" :: quoted (extensionName hvvr) :: optionals.

Section Extension.

Variable CallPowershell : Powershell.
Variable hvvr : hyperVvRouterForwardingExtension.

Definition callOnSwitch (command : string) (optionals : list string)
    (h : list (list string)) : (string * option string) * list (list string) :=
  let c := [command;
            "-VMSwitchName"; quoted (vswitchName hvvr);
            "-Name"; quoted (extensionName hvvr)] in
  let c := appendEach c optionals in
  let '(stdout, _, err) := CallPowershell h c in
  ((stdout, err), (h ++ [c])%list).

Definition inspectExtensionProperty (property : string) (h : list (list string))
  : (string * option string) * list (list string) :=
  callOnSwitch "Get-VMSwitchExtension" ["|"; "Select"; "-Expand"; quoted property] h.

Definition Enable (h : list (list string)) : option string * list (list string) :=
  let '((out, err), h1) := callOnSwitch "Enable-VMSwitchExtension" [] h in
  match err with
  | Some e => (Some e, h1)
  | None => (None, h1)
  end.

Definition Disable (h : list (list string)) : option string * list (list string) :=
  let '((out, err), h1) := callOnSwitch "Disable-VMSwitchExtension" [] h in
  match err with
  | Some e => (Some e, h1)
  | None => (None, h1)
  end.

Definition IsEnabled (h : list (list string))
  : (bool * option string) * list (list string) :=
  let '((out, err), h1) := inspectExtensionProperty "Enabled" h in
  match err with
  | Some e => ((false, Some e), h1)
  | None => ((String.eqb out "True", None), h1)
  end.

Definition IsRunning (h : list (list string))
  : (bool * option string) * list (list string) :=
  let '((out, err), h1) := inspectExtensionProperty "Running" h in
  match err with
  | Some e => ((false, Some e), h1)
  | None => ((String.eqb out "True", None), h1)
  end.

End Extension.

End hyperv_extension.

(** * Properties *)

Local Close Scope string_scope.

(** ** Strings *)

Lemma HasPrefix_spec (p s : string) :
  strings.HasPrefix s p = true <-> exists post, s = String.append p post.
Proof.
  revert s. induction p as [|c p IH]; intros s; simpl.
  - split; [intros _; exists s; reflexivity | reflexivity].
  - destruct s as [|d s]; simpl.
    + split; [discriminate | intros [post H]; discriminate].
    + rewrite andb_true_iff, IH. split.
      * intros [Hc [post ->]]. apply Ascii.eqb_eq in Hc as ->. eauto.
      * intros [post H]. injection H as -> ->. split; [apply Ascii.eqb_refl | eauto].
Qed.

Lemma Contains_spec (substr s : string) :
  strings.Contains s substr = true <-> strings.occurs_in substr s.
Proof.
  unfold strings.occurs_in. split.
  - induction s as [|c s IH]; simpl; rewrite orb_true_iff.
    + intros [H | H]; [|discriminate].
      apply HasPrefix_spec in H as [post H]. exists EmptyString, post. exact H.
    + intros [H | H].
      * apply HasPrefix_spec in H as [post H]. exists EmptyString, post. exact H.
      * destruct (IH H) as (pre & post & ->). exists (String c pre), post. reflexivity.
  - intros (pre & post & ->). induction pre as [|c pre IH]; simpl.
    + assert (H : strings.HasPrefix (String.append substr post) substr = true)
        by (apply HasPrefix_spec; eauto).
      destruct (String.append substr post); simpl in *; rewrite H; reflexivity.
    + rewrite IH. apply orb_true_r.
Qed.

Lemma transientSignature_spec (errMsg : string) :
  transientSignature errMsg = true <->
  strings.occurs_in "hns failed" errMsg /\ strings.occurs_in "unspecified error" errMsg.
Proof.
  unfold transientSignature. rewrite andb_true_iff, !Contains_spec. reflexivity.
Qed.

(** ** Worlds *)

Lemma calls_made_app (w w' : World) (cs : list Call) :
  trace w' = trace w ++ cs -> calls_made w w' = cs.
Proof. intros H. unfold calls_made. rewrite H. apply drop_app_length. Qed.

Lemma trace_perform B c w : trace (perform B c w) = trace w ++ [c].
Proof. reflexivity. Qed.

Lemma clock_perform B c w : clock (perform B c w) = clock w + b_elapse B w c.
Proof. reflexivity. Qed.

Lemma elapse_timely (B : Backend) : b_elapse B = sim.elapse -> timely B.
Proof.
  intros HB. unfold timely. rewrite HB.
  split; intros w c; unfold sim.elapse.
  - destruct c; lia.
  - lia.
Qed.

Lemma reaches_refl w : reaches w w.
Proof. exists []. symmetry. apply app_nil_r. Qed.

Lemma reaches_trans w1 w2 w3 : reaches w1 w2 -> reaches w2 w3 -> reaches w1 w3.
Proof.
  intros [cs1 H1] [cs2 H2]. exists (cs1 ++ cs2).
  rewrite H2, H1. symmetry. apply app_assoc.
Qed.

Lemma reaches_perform B c w : reaches w (perform B c w).
Proof. exists [c]. reflexivity. Qed.

(** ** Deleting a network *)

Section DeleteRun.

Variable B : Backend.
Variable hnsID : string.
Variable w : World.

Let w1 := perform B (NetworkRequest "GET" hnsID "") w.
Let w2 := perform B (ListNetworkRequest "GET" "" "") w1.
Let w3 := perform B (NetworkRequest "DELETE" hnsID "") w2.

(** The whole of [DeleteHNSNetwork] in terms of the backend's answers. *)
Lemma DeleteHNSNetwork_run :
  DeleteHNSNetwork B hnsID w =
  match b_network B w "GET" hnsID "" with
  | Failed msg => (Some (foreignError msg), w1)
  | Done toDelete =>
      match b_list B w1 "GET" "" "" with
      | Failed msg => (Some (foreignError msg), w2)
      | Done networks =>
          match b_network B w2 "DELETE" hnsID "" with
          | Failed msg => (Some (foreignError msg), w3)
          | Done _ =>
              if adapterStillInUse toDelete networks then (None, w3)
              else (foreignError <$> b_wait B w3 (NetworkAdapterName toDelete),
                    perform B (WaitIP (NetworkAdapterName toDelete)) w3)
          end
      end
  end.
Proof.
  unfold DeleteHNSNetwork, GetHNSNetwork, ListHNSNetworks, HNSNetworkRequest,
    HNSListNetworkRequest, WaitForValidIPReacquisition, bind, ret.
  fold w1. destruct (b_network B w "GET" hnsID "") as [toDelete|msg]; [|reflexivity].
  fold w2. destruct (b_list B w1 "GET" "" "") as [networks|msg]; [|reflexivity].
  fold w3. destruct (b_network B w2 "DELETE" hnsID "") as [deleted|msg]; [|reflexivity].
  destruct (adapterStillInUse toDelete networks); simpl; [reflexivity|].
  destruct (b_wait B w3 (NetworkAdapterName toDelete)); reflexivity.
Qed.

End DeleteRun.

Lemma adapterStillInUse_spec (toDelete : HNSNetwork) (networks : list HNSNetwork) :
  adapterStillInUse toDelete networks = true <->
  exists network, In network networks /\ Id network <> Id toDelete /\
                  NetworkAdapterName network = NetworkAdapterName toDelete.
Proof.
  induction networks as [|n rest IH]; simpl.
  - split; [discriminate | intros (? & [] & _)].
  - destruct (negb (String.eqb (Id n) (Id toDelete)) &&
              String.eqb (NetworkAdapterName n) (NetworkAdapterName toDelete)) eqn:E.
    + apply andb_true_iff in E as [E1 E2].
      apply negb_true_iff, String.eqb_neq in E1. apply String.eqb_eq in E2.
      split; [intros _; exists n; auto | reflexivity].
    + rewrite IH. split.
      * intros (m & Hin & H1 & H2). exists m. auto.
      * intros (m & [-> | Hin] & H1 & H2); [|exists m; auto].
        apply String.eqb_neq in H1. apply String.eqb_eq in H2.
        rewrite H1, H2 in E. discriminate.
Qed.

(** Every error of [DeleteHNSNetwork] comes from a backend. *)
Lemma DeleteHNSNetwork_error_foreign B hnsID w err :
  fst (DeleteHNSNetwork B hnsID w) = Some err -> exists msg, err = foreignError msg.
Proof.
  rewrite DeleteHNSNetwork_run.
  destruct (b_network B w "GET" hnsID "") as [toDelete|msg]; simpl;
    [|intros [= <-]; eauto].
  destruct (b_list B _ "GET" "" "") as [networks|msg]; simpl; [|intros [= <-]; eauto].
  destruct (b_network B _ "DELETE" hnsID "") as [deleted|msg]; simpl;
    [|intros [= <-]; eauto].
  destruct (adapterStillInUse toDelete networks); simpl; [discriminate|].
  destruct (b_wait B _ _) as [msg|]; simpl; [intros [= <-]; eauto | discriminate].
Qed.

Lemma DeleteHNSNetwork_reaches B hnsID w :
  reaches w (snd (DeleteHNSNetwork B hnsID w)).
Proof.
  rewrite DeleteHNSNetwork_run.
  repeat match goal with
         | |- context [match ?x with _ => _ end] => destruct x; simpl
         end;
    repeat (eapply reaches_trans; [|apply reaches_perform]); apply reaches_refl.
Qed.

Lemma DeleteHNSNetwork_clock B hnsID w :
  timely B -> clock w <= clock (snd (DeleteHNSNetwork B hnsID w)).
Proof.
  intros [Hpos _]. rewrite DeleteHNSNetwork_run.
  repeat match goal with
         | |- context [match ?x with _ => _ end] => destruct x; simpl
         end;
    rewrite ?clock_perform;
    repeat match goal with
           | |- context [b_elapse B ?v ?c] =>
               let H := fresh in
               pose proof (Hpos v c) as H; generalize dependent (b_elapse B v c); intros
           end; lia.
Qed.

(** ** One creation attempt *)

Section TryCreateRun.

Variable ToLower : string -> string.
Variable B : Backend.
Variable config : string.
Variable w : World.

Let w1 := perform B (NetworkRequest "POST" "" config) w.
Let w2 := perform B (WaitIP common.HNSTransparentInterfaceName) w1.

(** The whole of [tryCreateHNSNetwork] in terms of the backend's
    answers. *)
Lemma tryCreateHNSNetwork_run :
  tryCreateHNSNetwork ToLower B config w =
  match b_network B w "POST" "" config with
  | Failed msg =>
      (Err (if transientSignature (ToLower msg)
            then recoverableError (foreignError msg)
            else foreignError msg), w1)
  | Done created =>
      match b_wait B w1 common.HNSTransparentInterfaceName with
      | None => (Ok (Id created), w2)
      | Some msg =>
          (Err match fst (DeleteHNSNetwork B (Id created) w2) with
               | Some deleteErr => deleteErr
               | None => recoverableError (foreignError msg)
               end,
           snd (DeleteHNSNetwork B (Id created) w2))
      end
  end.
Proof.
  unfold tryCreateHNSNetwork, HNSNetworkRequest, WaitForValidIPReacquisition,
    bind, ret.
  fold w1. destruct (b_network B w "POST" "" config) as [created|msg].
  - fold w2. destruct (b_wait B w1 common.HNSTransparentInterfaceName) as [msg|];
      simpl; [|reflexivity].
    destruct (DeleteHNSNetwork B (Id created) w2) as [[deleteErr|] w3]; reflexivity.
  - simpl. destruct (transientSignature (ToLower msg)); reflexivity.
Qed.

(** An attempt fails with a backend's error, wrapped as recoverable or
    not; the wrapper is never nested. *)
Lemma tryCreateHNSNetwork_error_shape err :
  fst (tryCreateHNSNetwork ToLower B config w) = Err err ->
  exists msg, err = foreignError msg \/ err = recoverableError (foreignError msg).
Proof.
  rewrite tryCreateHNSNetwork_run.
  destruct (b_network B w "POST" "" config) as [created|msg]; simpl.
  - destruct (b_wait B w1 common.HNSTransparentInterfaceName) as [msg|]; simpl;
      [|discriminate].
    destruct (fst (DeleteHNSNetwork B (Id created) w2)) as [deleteErr|] eqn:E.
    + apply DeleteHNSNetwork_error_foreign in E as [m ->]. intros [= <-]. eauto.
    + intros [= <-]. eauto.
  - destruct (transientSignature (ToLower msg)); intros [= <-]; eauto.
Qed.

Lemma tryCreateHNSNetwork_reaches :
  reaches w (snd (tryCreateHNSNetwork ToLower B config w)).
Proof.
  rewrite tryCreateHNSNetwork_run.
  destruct (b_network B w "POST" "" config) as [created|msg]; simpl.
  - destruct (b_wait B w1 common.HNSTransparentInterfaceName) as [msg|]; simpl.
    + eapply reaches_trans; [|apply DeleteHNSNetwork_reaches].
      eapply reaches_trans; apply reaches_perform.
    + eapply reaches_trans; apply reaches_perform.
  - apply reaches_perform.
Qed.

Lemma tryCreateHNSNetwork_clock :
  timely B -> clock w <= clock (snd (tryCreateHNSNetwork ToLower B config w)).
Proof.
  intros HB. pose proof HB as [Hpos _]. rewrite tryCreateHNSNetwork_run.
  pose proof (Hpos w (NetworkRequest "POST" "" config)) as H1.
  pose proof (Hpos w1 (WaitIP common.HNSTransparentInterfaceName)) as H2.
  assert (clock w <= clock w1) by (unfold w1; rewrite clock_perform; lia).
  assert (clock w1 <= clock w2) by (unfold w2; rewrite clock_perform; lia).
  destruct (b_network B w "POST" "" config) as [created|msg]; simpl; [|lia].
  destruct (b_wait B w1 common.HNSTransparentInterfaceName) as [msg|]; simpl; [|lia].
  pose proof (DeleteHNSNetwork_clock B (Id created) w2 HB). lia.
Qed.

(** An attempt starts with the creation request. *)
Lemma tryCreateHNSNetwork_first_call :
  exists rest,
    calls_made w (snd (tryCreateHNSNetwork ToLower B config w)) =
    NetworkRequest "POST" "" config :: rest.
Proof.
  rewrite tryCreateHNSNetwork_run.
  assert (Hw2 : trace w2 = trace w ++ [NetworkRequest "POST" "" config;
                                      WaitIP common.HNSTransparentInterfaceName]).
  { unfold w2, w1. rewrite !trace_perform, <- app_assoc. reflexivity. }
  destruct (b_network B w "POST" "" config) as [created|msg]; simpl.
  - destruct (b_wait B w1 common.HNSTransparentInterfaceName) as [msg|]; simpl.
    + destruct (DeleteHNSNetwork_reaches B (Id created) w2) as [cs Hcs].
      eexists. apply calls_made_app. rewrite Hcs, Hw2, <- app_assoc. reflexivity.
    + eexists. apply calls_made_app. exact Hw2.
  - eexists. apply calls_made_app. reflexivity.
Qed.

End TryCreateRun.

(** ** Pauses and creation requests in a list of calls *)

Lemma sleeps_app cs1 cs2 : sleeps (cs1 ++ cs2) = sleeps cs1 ++ sleeps cs2.
Proof.
  induction cs1 as [|c cs1 IH]; [reflexivity|].
  destruct c; simpl; rewrite IH; reflexivity.
Qed.

Lemma attempts_app cs1 cs2 : attempts (cs1 ++ cs2) = (attempts cs1 + attempts cs2)%nat.
Proof. unfold attempts. rewrite filter_app. apply length_app. Qed.

Lemma attempts_cons c cs :
  attempts (c :: cs) = ((if isCreate c then 1 else 0) + attempts cs)%nat.
Proof.
  unfold attempts. rewrite filter_cons.
  destruct (decide (isCreate c = true)) as [E|E].
  - rewrite E. reflexivity.
  - apply not_true_is_false in E. rewrite E. reflexivity.
Qed.

Lemma plain_sleeps cs : Forall plain cs -> sleeps cs = [].
Proof.
  induction 1 as [|c cs Hc _ IH]; [reflexivity|].
  destruct c; simpl in *; try exact IH. contradiction.
Qed.

Lemma plain_attempts cs : Forall plain cs -> attempts cs = 0%nat.
Proof.
  induction 1 as [|c cs Hc _ IH]; [reflexivity|].
  rewrite attempts_cons, IH.
  destruct c; simpl in *; try contradiction; try rewrite Hc; reflexivity.
Qed.

Lemma DeleteHNSNetwork_calls B hnsID w :
  exists cs, trace (snd (DeleteHNSNetwork B hnsID w)) = trace w ++ cs /\ Forall plain cs.
Proof.
  rewrite DeleteHNSNetwork_run.
  repeat match goal with
         | |- context [match ?x with _ => _ end] => destruct x; simpl
         end;
    rewrite ?trace_perform, <- ?app_assoc; simpl;
    eexists; (split; [reflexivity|]); repeat constructor.
Qed.

(** One attempt makes one creation request, first, and never pauses. *)
Lemma tryCreateHNSNetwork_calls ToLower B config w :
  exists cs,
    trace (snd (tryCreateHNSNetwork ToLower B config w)) =
    trace w ++ NetworkRequest "POST" "" config :: cs /\ Forall plain cs.
Proof.
  rewrite tryCreateHNSNetwork_run.
  destruct (b_network B w "POST" "" config) as [created|msg]; simpl.
  - destruct (b_wait B _ common.HNSTransparentInterfaceName) as [msg|]; simpl.
    + destruct (DeleteHNSNetwork_calls B (Id created)
                  (perform B (WaitIP common.HNSTransparentInterfaceName)
                     (perform B (NetworkRequest "POST" "" config) w))) as (cs & Hcs & Hp).
      rewrite Hcs, ?trace_perform, <- ?app_assoc. simpl.
      eexists. split; [reflexivity|]. constructor; [reflexivity | exact Hp].
    + rewrite ?trace_perform, <- ?app_assoc. simpl.
      eexists. split; [reflexivity|]. repeat constructor.
  - rewrite ?trace_perform. exists []. split; [reflexivity | constructor].
Qed.

(** ** The retry loop *)

Lemma wrap64_small z : - 2 ^ 63 <= z < 2 ^ 63 -> wrap64 z = z.
Proof.
  intros H. unfold wrap64. rewrite Z.mod_small; [lia|].
  change (2 ^ 64) with (2 * 2 ^ 63). lia.
Qed.

(** Saturation does not change how a time that has not run backwards
    compares with a budget. *)
Lemma saturate64_lt z t :
  min_int64 <= z -> t <= max_int64 -> (saturate64 z < t <-> z < t).
Proof. unfold saturate64, max_int64, min_int64. lia. Qed.

Section Loop.

Variable ToLower : string -> string.
Variable B : Backend.
Variable config : string.
Variable creatingStart : Z.

Local Abbreviation attempt := (tryCreateHNSNetwork ToLower B config).
Local Abbreviation loop := (retryLoop ToLower B).

(** One pass of the loop. *)
Lemma retryLoop_pass fuel delay w :
  loop (S fuel) config creatingStart delay w =
  match fst (attempt w) with
  | Ok id => Some (Ok id, snd (attempt w))
  | Err err =>
      match asRecoverable err with
      | Some inner =>
          if saturate64 (clock (snd (attempt w)) - creatingStart)
             <? common.CreateHNSNetworkTimeout
          then loop fuel config creatingStart (wrap64 (delay * 2))
                 (perform B (Sleep delay) (snd (attempt w)))
          else Some (Err inner, snd (attempt w))
      | None => Some (Err err, snd (attempt w))
      end
  end.
Proof. simpl. destruct (attempt w) as [r w1]. reflexivity. Qed.

(** More fuel does not change a result. *)
Lemma retryLoop_more_fuel fuel : forall more delay w out,
  loop fuel config creatingStart delay w = Some out ->
  loop (fuel + more) config creatingStart delay w = Some out.
Proof.
  induction fuel as [|fuel IH]; intros more delay w out; [discriminate|].
  replace (S fuel + more)%nat with (S (fuel + more)) by lia.
  rewrite !retryLoop_pass.
  destruct (fst (attempt w)) as [id|err]; [trivial|].
  destruct (asRecoverable err) as [inner|]; [|trivial].
  destruct (_ <? _); [apply IH | trivial].
Qed.

(** The loop never hands out an error that is still wrapped. *)
Lemma retryLoop_error_foreign fuel : forall delay w err w',
  loop fuel config creatingStart delay w = Some (Err err, w') ->
  exists msg, err = foreignError msg.
Proof.
  induction fuel as [|fuel IH]; intros delay w err w'; [discriminate|].
  rewrite retryLoop_pass.
  destruct (fst (attempt w)) as [id|e] eqn:E; [discriminate|].
  apply tryCreateHNSNetwork_error_shape in E as [msg [-> | ->]]; simpl.
  - intros [= <- _]. eauto.
  - destruct (_ <? _); [apply IH | intros [= <- _]; eauto].
Qed.

End Loop.

(** ** The delays and the number of passes *)

Lemma nthDelay_succ k : nthDelay (S k) = nthDelay k * 2.
Proof.
  unfold nthDelay. rewrite Nat2Z.inj_succ, Z.pow_succ_r by lia. lia.
Qed.

Lemma nthDelay_bounds k :
  (k <= 5)%nat -> common.CreateHNSNetworkInitialRetryDelay <= nthDelay k <= 160000.
Proof.
  intros H. do 6 (destruct k as [|k]; [vm_compute; split; discriminate|]). lia.
Qed.

Lemma nthDelay_5 : nthDelay 5 = 160000.
Proof. reflexivity. Qed.

Section LoopAnalysis.

Variable ToLower : string -> string.
Variable B : Backend.
Variable config : string.
Variable creatingStart : Z.
Hypothesis HB : timely B.

Local Abbreviation attempt := (tryCreateHNSNetwork ToLower B config).
Local Abbreviation loop := (retryLoop ToLower B).
Local Abbreviation d0 := common.CreateHNSNetworkInitialRetryDelay.

(** A pass made once the budget is spent leaves the loop. *)
Lemma retryLoop_budget_spent fuel delay w :
  common.CreateHNSNetworkTimeout <= clock w - creatingStart ->
  loop (S fuel) config creatingStart delay w =
  Some (leaving (fst (attempt w)), snd (attempt w)).
Proof.
  intros Hspent. rewrite retryLoop_pass.
  pose proof (tryCreateHNSNetwork_clock ToLower B config w HB) as Hmono.
  destruct (fst (attempt w)) as [id|err]; [reflexivity|]. simpl.
  destruct (asRecoverable err) as [inner|]; [|reflexivity].
  destruct (Z.ltb_spec (saturate64 (clock (snd (attempt w)) - creatingStart))
              common.CreateHNSNetworkTimeout) as [Hlt|_]; [|reflexivity].
  assert (Hmin : min_int64 <= clock (snd (attempt w)) - creatingStart).
  { unfold min_int64. unfold common.CreateHNSNetworkTimeout in Hspent. lia. }
  assert (Hmax : common.CreateHNSNetworkTimeout <= max_int64)
    by (vm_compute; discriminate).
  apply (proj1 (saturate64_lt _ _ Hmin Hmax)) in Hlt. lia.
Qed.

(** From pass [k] on, with [n] more passes allowed by the budget: the loop
    leaves within [n] further pauses, which are the doubled delays. *)
Lemma retryLoop_analysis n : forall k delay w,
  (k + n = 5)%nat ->
  delay = nthDelay k ->
  nthDelay k - d0 <= clock w - creatingStart ->
  exists r w' cs m,
    (m <= n)%nat /\
    (forall fuel, (n < fuel)%nat -> loop fuel config creatingStart delay w = Some (r, w')) /\
    trace w' = trace w ++ cs /\
    sleeps cs = map nthDelay (seq k m) /\
    attempts cs = S m /\
    (forall id, (forall v, fst (attempt v) <> Ok id) -> r <> Ok id).
Proof.
  induction n as [|n IH]; intros k delay w Hk Hdelay Hclock.
  - assert (k = 5)%nat as -> by lia. rewrite nthDelay_5 in Hclock.
    destruct (tryCreateHNSNetwork_calls ToLower B config w) as (cs & Htr & Hplain).
    exists (leaving (fst (attempt w))), (snd (attempt w)), (NetworkRequest "POST" "" config :: cs), 0%nat.
    split; [lia|]. split; [|split; [exact Htr|split; [|split]]].
    + intros [|fuel] Hfuel; [lia|]. apply retryLoop_budget_spent.
      unfold common.CreateHNSNetworkTimeout, d0, common.CreateHNSNetworkInitialRetryDelay in *.
      lia.
    + simpl. apply plain_sleeps, Hplain.
    + rewrite attempts_cons, plain_attempts by exact Hplain. reflexivity.
    + intros id' Hnever. specialize (Hnever w).
      destruct (fst (attempt w)) as [id|err]; simpl; [exact Hnever|].
      destruct (asRecoverable err); discriminate.
  - destruct (tryCreateHNSNetwork_calls ToLower B config w) as (cs & Htr & Hplain).
    pose proof (tryCreateHNSNetwork_clock ToLower B config w HB) as Hmono.
    pose proof (nthDelay_bounds k ltac:(lia)) as Hbound.
    unfold common.CreateHNSNetworkInitialRetryDelay in Hbound, Hclock.
    destruct (fst (attempt w)) as [id|err] eqn:Eres;
      [|destruct (asRecoverable err) as [inner|] eqn:Erec;
        [destruct (saturate64 (clock (snd (attempt w)) - creatingStart)
                   <? common.CreateHNSNetworkTimeout) eqn:Echeck|]].
    2: {
      set (w3 := perform B (Sleep delay) (snd (attempt w))).
      destruct (IH (S k) (wrap64 (delay * 2)) w3) as (r & w' & cs' & m & Hm & Hrun & Htr' & Hsl & Hat & Hok).
      - lia.
      - rewrite nthDelay_succ, Hdelay. apply wrap64_small. lia.
      - rewrite nthDelay_succ. unfold w3. rewrite clock_perform.
        unfold common.CreateHNSNetworkInitialRetryDelay.
        destruct HB as [_ Hsleep]. specialize (Hsleep (snd (attempt w)) delay). lia.
      - exists r, w', (NetworkRequest "POST" "" config :: cs ++ Sleep delay :: cs'), (S m).
        split; [lia|]. split; [|split; [|split; [|split]]].
        + intros [|fuel] Hfuel; [lia|]. rewrite retryLoop_pass, Eres, Erec, Echeck.
          apply Hrun. lia.
        + rewrite Htr'. unfold w3. rewrite trace_perform, Htr, <- !app_assoc. reflexivity.
        + simpl. rewrite sleeps_app, (plain_sleeps cs Hplain). simpl.
          rewrite Hsl, Hdelay. reflexivity.
        + rewrite attempts_cons, attempts_app, (plain_attempts cs Hplain), attempts_cons, Hat.
          reflexivity.
        + exact Hok.
    }
    all: exists (leaving (fst (attempt w))), (snd (attempt w)),
           (NetworkRequest "POST" "" config :: cs), 0%nat.
    all: split; [lia|]; split; [|split; [exact Htr|split; [|split]]].
    all: try (simpl; apply plain_sleeps, Hplain).
    all: try (rewrite attempts_cons, plain_attempts by exact Hplain; reflexivity).
    all: try (intros [|fuel] Hfuel; [lia|]; rewrite retryLoop_pass, Eres; simpl;
              rewrite ?Erec, ?Echeck; reflexivity).
    all: intros id' Hnever; specialize (Hnever w); rewrite Eres in *; simpl;
      rewrite ?Erec; try discriminate; exact Hnever.
Qed.

End LoopAnalysis.

(** ** A whole run of [CreateHNSNetwork] *)

Section Run.

Variable ToLower : string -> string.
Variable Marshal : HNSNetwork -> response string.
Variable B : Backend.
Hypothesis HB : timely B.

Local Abbreviation create := (CreateHNSNetwork ToLower Marshal B).

(** Six passes are always enough, and the pauses made are the initial delay
    doubled again and again. *)
Lemma CreateHNSNetwork_analysis configuration w :
  exists r w' cs m,
    (m <= 5)%nat /\
    (forall fuel, (6 <= fuel)%nat -> create fuel configuration w = Some (r, w')) /\
    trace w' = trace w ++ cs /\
    sleeps cs = map nthDelay (seq 0 m) /\
    (attempts cs <= S m)%nat /\
    ((forall config v, exists err, fst (tryCreateHNSNetwork ToLower B config v) = Err err) ->
     exists msg, r = Err (foreignError msg)).
Proof.
  unfold CreateHNSNetwork.
  destruct (Marshal configuration) as [config|msg].
  - destruct (retryLoop_analysis ToLower B config (clock w) HB 5 0
                common.CreateHNSNetworkInitialRetryDelay w)
      as (r & w' & cs & m & Hm & Hrun & Htr & Hsl & Hat & Hok).
    + reflexivity.
    + reflexivity.
    + change (nthDelay 0) with 5000.
      unfold common.CreateHNSNetworkInitialRetryDelay. lia.
    + exists r, w', cs, m. split; [exact Hm|]. split; [|split; [exact Htr|split; [exact Hsl|split]]].
      * intros fuel Hfuel. simpl. apply Hrun. lia.
      * lia.
      * intros Hfail. destruct r as [id|err].
        -- exfalso. refine (Hok id _ eq_refl).
           intros v E. destruct (Hfail config v) as [err E']. congruence.
        -- destruct (retryLoop_error_foreign ToLower B config (clock w) 6
                       common.CreateHNSNetworkInitialRetryDelay w err w') as [msg ->];
             [apply Hrun; lia | eauto].
  - exists (Err (foreignError msg)), w, [], 0%nat.
    split; [lia|]. split; [reflexivity|]. split; [symmetry; apply app_nil_r|].
    split; [reflexivity|]. split; [unfold attempts; simpl; lia|]. eauto.
Qed.

(** Whatever the fuel, a run that returns is the run of six passes. *)
Lemma CreateHNSNetwork_canonical fuel configuration w out :
  create fuel configuration w = Some out ->
  create (fuel + 6) configuration w = Some out.
Proof.
  unfold CreateHNSNetwork. destruct (Marshal configuration) as [config|msg]; [|trivial].
  simpl. apply retryLoop_more_fuel.
Qed.

End Run.

(** * The claims *)

(** C1.  When the backend's network-create request fails with message
    [msg], the attempt is classified recoverable exactly when the
    lower-cased message contains both "hns failed" and "unspecified error".
    Any other failure is returned as it is and ends the loop at that very
    pass, whichever pass it is and whatever the delay and the time already
    spent: no pause, no further request.  In particular [CreateHNSNetwork]
    hands it out after a single request when it meets it first. *)
Theorem C1_creation_error_classification
    (ToLower : string -> string) (Marshal : HNSNetwork -> response string)
    (B : Backend) (configuration : HNSNetwork) (config : string) (w : World)
    (msg : string) (fuel passes : nat) (creatingStart delay : Z) :
  Marshal configuration = Done config ->
  b_network B w "POST" "" config = Failed msg ->
  let signature :=
    strings.occurs_in "hns failed" (ToLower msg) /\
    strings.occurs_in "unspecified error" (ToLower msg) in
  let w1 := perform B (NetworkRequest "POST" "" config) w in
  ((exists inner,
      fst (tryCreateHNSNetwork ToLower B config w) = Err (recoverableError inner))
   <-> signature) /\
  (signature ->
   tryCreateHNSNetwork ToLower B config w = (Err (recoverableError (foreignError msg)), w1)) /\
  (~ signature ->
   tryCreateHNSNetwork ToLower B config w = (Err (foreignError msg), w1) /\
   retryLoop ToLower B (S passes) config creatingStart delay w =
   Some (Err (foreignError msg), w1) /\
   CreateHNSNetwork ToLower Marshal B (S fuel) configuration w =
   Some (Err (foreignError msg), w1)).
Proof.
  intros HM Hpost signature w1.
  assert (Hrun : tryCreateHNSNetwork ToLower B config w =
                 (Err (if transientSignature (ToLower msg)
                       then recoverableError (foreignError msg)
                       else foreignError msg), w1)).
  { rewrite tryCreateHNSNetwork_run, Hpost. reflexivity. }
  pose proof (transientSignature_spec (ToLower msg)) as Hsig. fold signature in Hsig.
  destruct (transientSignature (ToLower msg)) eqn:E.
  - assert (Hs : signature) by (apply Hsig; reflexivity).
    split; [|split].
    + rewrite Hrun. simpl. split; [intros _; exact Hs | eauto].
    + intros _. exact Hrun.
    + intros Hn. contradiction.
  - assert (Hs : ~ signature) by (intros Hs; apply Hsig in Hs; discriminate).
    split; [|split].
    + rewrite Hrun. simpl. split; [intros [inner [=]] | intros Hs'; contradiction].
    + intros Hs'. contradiction.
    + intros _. split; [exact Hrun|].
      split; [rewrite retryLoop_pass, Hrun; reflexivity|].
      unfold CreateHNSNetwork. rewrite HM. simpl.
      change (retryLoop ToLower B (S fuel) config (clock w)
                common.CreateHNSNetworkInitialRetryDelay w =
              Some (Err (foreignError msg), w1)).
      rewrite retryLoop_pass, Hrun. reflexivity.
Qed.





(** C4, as stated, fails: when the create request itself fails with the
    transient signature, the provisioner pauses and sends the next create
    request without any adapter wait in between.  Here the first request
    fails recoverably and the second is served; the only wait comes after
    the second. *)
Lemma C4_no_gate_after_failed_request :
  let B := sim.transientOnce in
  let configuration := sim.net "net-1" "Ethernet0" in
  let post := NetworkRequest "POST" "" "Contrail:net-1" in
  let calls := [post; Sleep 5000; post; WaitIP "vEthernet (HNSTransparent)"] in
  fst (tryCreateHNSNetwork strings.ToLowerASCII B "Contrail:net-1" sim.start) =
    Err (recoverableError (foreignError sim.transientMessage)) /\
  CreateHNSNetwork strings.ToLowerASCII sim.marshal B 6 configuration sim.start =
    Some (Ok "net-1", {| clock := 5000; trace := calls |}) /\
  gatedRetries false calls = false /\
  ~ (forall ToLower Marshal B fuel configuration w r w',
       CreateHNSNetwork ToLower Marshal B fuel configuration w = Some (r, w') ->
       gatedRetries false (calls_made w w') = true).
Proof.
  intros B configuration post calls.
  assert (Hrun : CreateHNSNetwork strings.ToLowerASCII sim.marshal B 6 configuration
                   sim.start = Some (Ok "net-1", {| clock := 5000; trace := calls |}))
    by (vm_compute; reflexivity).
  split; [vm_compute; reflexivity|]. split; [exact Hrun|].
  split; [reflexivity|].
  intros H. specialize (H _ _ _ _ _ _ _ _ Hrun). vm_compute in H. discriminate H.
Qed.

(** C4, amended.  The adapter wait is made right after every create request
    that the backend serves, as the next call, and the attempt returns the
    new [Id] exactly when that wait succeeds.  After a create request that
    fails, the attempt makes no other call; if the failure has the transient
    signature and the budget is not spent, the only call before the next
    attempt is the pause of the current delay. *)
Theorem C4_wait_follows_served_request
    (ToLower : string -> string) (B : Backend) (config : string) (w : World)
    (passes : nat) (creatingStart delay : Z) :
  let w1 := perform B (NetworkRequest "POST" "" config) w in
  let attempt := tryCreateHNSNetwork ToLower B config w in
  match b_network B w "POST" "" config with
  | Done created =>
      (exists rest,
         calls_made w (snd attempt) =
         NetworkRequest "POST" "" config :: WaitIP common.HNSTransparentInterfaceName :: rest) /\
      (fst attempt = Ok (Id created) <->
       b_wait B w1 common.HNSTransparentInterfaceName = None)
  | Failed msg =>
      snd attempt = w1 /\
      retryLoop ToLower B (S passes) config creatingStart delay w =
        (if transientSignature (ToLower msg) then
           if saturate64 (clock w1 - creatingStart) <? common.CreateHNSNetworkTimeout
           then retryLoop ToLower B passes config creatingStart (wrap64 (delay * 2))
                  (perform B (Sleep delay) w1)
           else Some (Err (foreignError msg), w1)
         else Some (Err (foreignError msg), w1))
  end.
Proof.
  intros w1 attempt. unfold attempt. rewrite retryLoop_pass, tryCreateHNSNetwork_run.
  fold w1. destruct (b_network B w "POST" "" config) as [created|msg].
  - destruct (b_wait B w1 common.HNSTransparentInterfaceName) as [msg|]; simpl.
    + split; [|split; discriminate].
      destruct (DeleteHNSNetwork_calls B (Id created)
                  (perform B (WaitIP common.HNSTransparentInterfaceName) w1))
        as (cs & Hcs & _).
      exists cs. apply calls_made_app.
      rewrite Hcs. unfold w1. rewrite !trace_perform, <- !app_assoc. reflexivity.
    + split; [|split; reflexivity].
      exists []. apply calls_made_app.
      unfold w1. rewrite !trace_perform, <- !app_assoc. reflexivity.
  - simpl. split; [reflexivity|].
    destruct (transientSignature (ToLower msg)); reflexivity.
Qed.

(** C5.  With a clock that does not run backwards and pauses that last at
    least as long as asked, [CreateHNSNetwork] always returns: six passes
    are enough whatever the backend answers.  It makes at most six create
    requests, every pause is at least the initial delay, which is positive,
    and when every attempt fails the result is an error of the backend. *)
Theorem C5_retry_loop_terminates
    (ToLower : string -> string) (Marshal : HNSNetwork -> response string)
    (B : Backend) (configuration : HNSNetwork) (w : World) :
  timely B ->
  exists r w',
    (forall fuel, (6 <= fuel)%nat ->
       CreateHNSNetwork ToLower Marshal B fuel configuration w = Some (r, w')) /\
    (attempts (calls_made w w') <= 6)%nat /\
    0 < common.CreateHNSNetworkInitialRetryDelay /\
    Forall (fun d => common.CreateHNSNetworkInitialRetryDelay <= d)
           (sleeps (calls_made w w')) /\
    ((forall config v, exists err,
         fst (tryCreateHNSNetwork ToLower B config v) = Err err) ->
     exists msg, r = Err (foreignError msg)).
Proof.
  intros HB.
  destruct (CreateHNSNetwork_analysis ToLower Marshal B HB configuration w)
    as (r & w' & cs & m & Hm & Hsix & Htr & Hsl & Hat & Hfail).
  exists r, w'. rewrite (calls_made_app _ _ _ Htr).
  split; [exact Hsix|]. split; [lia|]. split; [reflexivity|]. split; [|exact Hfail].
  rewrite Hsl. apply List.Forall_forall. intros d Hd.
  apply in_map_iff in Hd as (k & <- & Hk). apply in_seq in Hk.
  apply nthDelay_bounds. lia.
Qed.

Lemma firstNamed_none (name : string) (nets : list HNSNetwork) :
  (forall n, In n nets -> Name n <> name) -> firstNamed name nets = None.
Proof.
  induction nets as [|n rest IH]; intros Hname; [reflexivity|]. simpl.
  destruct (String.eqb_spec (Name n) name) as [E|_].
  - exfalso. apply (Hname n); [left; reflexivity | exact E].
  - apply IH. intros n' Hin. apply Hname. right. exact Hin.
Qed.

(** C9.  When the listing succeeds and holds no network of the name asked
    for, [GetHNSNetworkByName] returns no network and no error.  The lookup
    by ID instead hands over the backend's refusal of an unknown ID as an
    error. *)
Theorem C9_lookup_by_name_absent
    (B : Backend) (w : World) (name : string) (nets : list HNSNetwork)
    (hnsID msg : string) :
  b_list B w "GET" "" "" = Done nets ->
  (forall n, In n nets -> Name n <> name) ->
  b_network B w "GET" hnsID "" = Failed msg ->
  fst (GetHNSNetworkByName B name w) = Ok None /\
  fst (GetHNSNetwork B hnsID w) = Err (foreignError msg).
Proof.
  intros Hlist Hname Hget. split.
  - unfold GetHNSNetworkByName, HNSListNetworkRequest, bind, ret. rewrite Hlist. simpl.
    rewrite firstNamed_none by exact Hname. reflexivity.
  - unfold GetHNSNetwork, HNSNetworkRequest, bind, ret. rewrite Hget. reflexivity.
Qed.

(** C10.  When the backend serves the lookup, the listing and the delete
    request, [DeleteHNSNetwork] makes the adapter wait after the delete
    request if and only if no listed network with another [Id] uses the
    adapter of the deleted one; when such a network exists it returns
    success with the delete request as its last call. *)
Theorem C10_wait_only_when_adapter_unused
    (B : Backend) (hnsID : string) (w : World)
    (toDelete deleted : HNSNetwork) (networks : list HNSNetwork) :
  let w1 := perform B (NetworkRequest "GET" hnsID "") w in
  let w2 := perform B (ListNetworkRequest "GET" "" "") w1 in
  let w3 := perform B (NetworkRequest "DELETE" hnsID "") w2 in
  b_network B w "GET" hnsID "" = Done toDelete ->
  b_list B w1 "GET" "" "" = Done networks ->
  b_network B w2 "DELETE" hnsID "" = Done deleted ->
  let shared :=
    exists network, In network networks /\ Id network <> Id toDelete /\
                    NetworkAdapterName network = NetworkAdapterName toDelete in
  let adapter := NetworkAdapterName toDelete in
  (In (WaitIP adapter) (calls_made w3 (snd (DeleteHNSNetwork B hnsID w))) <-> ~ shared) /\
  (shared -> DeleteHNSNetwork B hnsID w = (None, w3)) /\
  (~ shared ->
   DeleteHNSNetwork B hnsID w =
   (foreignError <$> b_wait B w3 adapter, perform B (WaitIP adapter) w3)).
Proof.
  intros w1 w2 w3 Hget Hlist Hdel shared adapter.
  pose proof (adapterStillInUse_spec toDelete networks) as Hspec. fold shared in Hspec.
  rewrite DeleteHNSNetwork_run, Hget. fold w1. rewrite Hlist. fold w2. rewrite Hdel.
  fold w3. fold adapter.
  destruct (adapterStillInUse toDelete networks).
  - assert (Hs : shared) by (apply Hspec; reflexivity).
    simpl. split; [|split].
    + unfold calls_made. rewrite drop_all. simpl. split; [intros [] | intros Hn; contradiction].
    + reflexivity.
    + intros Hn. contradiction.
  - assert (Hs : ~ shared) by (intros Hs; apply Hspec in Hs; discriminate).
    simpl. split; [|split].
    + rewrite (calls_made_app w3 _ [WaitIP adapter]) by reflexivity.
      split; [intros _; exact Hs | intros _; left; reflexivity].
    + intros Hs'. contradiction.
    + reflexivity.
Qed.

(** ** The driver core *)

Local Open Scope string_scope.

(** C6.  A [CreateNetwork] request whose option map lacks the tenant or the
    network name is answered [InvalidRequest], and the store comes back as
    it was: no call has reached a port and no mapping was recorded. *)
Theorem C6_invalid_request_touches_nothing
    (P : core.Ports) (req : core.CreateNetworkRequest) (st : core.Store) :
  core.Options req !! "tenant" = None \/ core.Options req !! "network" = None ->
  core.CreateNetwork P req st = (Some core.InvalidRequest, st).
Proof.
  unfold core.CreateNetwork. intros [H | H]; rewrite H.
  - reflexivity.
  - destruct (core.Options req !! "tenant"); reflexivity.
Qed.

(** C7.  [DeleteNetwork] on a runtime ID without mapping returns success and
    leaves the store as it was.  With a mapping, a "not found" answer of the
    local-network backend is taken as success and the mapping is dropped.
    Either way, deleting once more succeeds again without any call. *)
Theorem C7_delete_network_idempotent
    (P : core.Ports) (runtimeNetworkID : string) (st : core.Store) :
  let out := core.DeleteNetwork P runtimeNetworkID st in
  (core.networks st !! runtimeNetworkID = None -> out = (None, st)) /\
  (forall managed,
     core.networks st !! runtimeNetworkID = Some managed ->
     core.deleteLocalNetwork P (core.calls st) (core.localNetworkID managed) = core.Missing ->
     fst out = None /\
     core.networks (snd out) = delete runtimeNetworkID (core.networks st)) /\
  (fst out = None ->
   core.networks (snd out) !! runtimeNetworkID = None /\
   core.DeleteNetwork P runtimeNetworkID (snd out) = (None, snd out)).
Proof.
  intros out. split; [|split].
  - intros E. unfold out, core.DeleteNetwork. rewrite E. reflexivity.
  - intros managed E1 E2. unfold out, core.DeleteNetwork. rewrite E1, E2.
    split; reflexivity.
  - assert (Hagain : forall st', core.networks st' !! runtimeNetworkID = None ->
              core.networks st' !! runtimeNetworkID = None /\
              core.DeleteNetwork P runtimeNetworkID st' = (None, st')).
    { intros st' E. split; [exact E|]. unfold core.DeleteNetwork. rewrite E. reflexivity. }
    intros Hout. apply Hagain. revert Hout. unfold out, core.DeleteNetwork.
    destruct (core.networks st !! runtimeNetworkID) as [managed|] eqn:E.
    + destruct (core.deleteLocalNetwork P (core.calls st) (core.localNetworkID managed));
        simpl; try discriminate; intros _; apply lookup_delete_eq.
    + intros _. exact E.
Qed.

(** C8.  [Leave] returns success for every runtime endpoint ID and leaves
    the store as it was, mappings and call log alike: it makes no call on
    any port, so whether the local endpoint repository knows the endpoint
    has no bearing on the outcome, and the handlers that run after it find
    what they would have found without it. *)
Theorem C8_leave_is_noop_success
    (P : core.Ports) (runtimeEndpointID : string) (st : core.Store) :
  core.Leave runtimeEndpointID st = (None, st) /\
  (forall runtimeNetworkID,
     core.DeleteNetwork P runtimeNetworkID (snd (core.Leave runtimeEndpointID st)) =
     core.DeleteNetwork P runtimeNetworkID st) /\
  (forall req,
     core.CreateNetwork P req (snd (core.Leave runtimeEndpointID st)) =
     core.CreateNetwork P req st).
Proof.
  split; [reflexivity|]. split; intros; reflexivity.
Qed.

(** * The theorems at work on the simulated backends

    Each theorem above that has a hypothesis is applied once to a concrete
    backend, with its hypotheses checked by evaluation. *)


(** C1 on a backend whose first create request fails transiently and
    whose second is refused: the refusal, met at the second pass, ends the
    loop there. *)
Lemma C1_refused_request_witness :
  let B := transientThenRefused in
  let post := NetworkRequest "POST" "" "Contrail:net-1" in
  let denied := "HNS failed with error : Access is denied"%string in
  let w := {| clock := 5000; trace := [post; Sleep 5000] |} in
  sim.marshal (sim.net "net-1" "Ethernet0") = Done "Contrail:net-1"%string /\
  b_network B w "POST" "" "Contrail:net-1" = Failed denied /\
  CreateHNSNetwork strings.ToLowerASCII sim.marshal B 6 (sim.net "net-1" "Ethernet0")
    sim.start =
  Some (Err (foreignError denied), {| clock := 5000; trace := [post; Sleep 5000; post] |}) /\
  retryLoop strings.ToLowerASCII B 1 "Contrail:net-1" 0 10000 w =
  Some (Err (foreignError denied), perform B post w).
Proof.
  intros B post denied w.
  split; [reflexivity|]. split; [reflexivity|]. split; [reflexivity|].
  apply (C1_creation_error_classification strings.ToLowerASCII sim.marshal B
           (sim.net "net-1" "Ethernet0") "Contrail:net-1" w denied 0 0 0 10000
           eq_refl eq_refl).
  intros [_ H]. apply Contains_spec in H. vm_compute in H. discriminate H.
Defined.



(** C5 on the backend whose every create request fails transiently. *)
Lemma C5_always_transient_witness :
  timely sim.alwaysTransient /\
  exists r w',
    (forall fuel, (6 <= fuel)%nat ->
       CreateHNSNetwork strings.ToLowerASCII sim.marshal sim.alwaysTransient fuel
         (sim.net "net-1" "Ethernet0") sim.start = Some (r, w')) /\
    (attempts (calls_made sim.start w') <= 6)%nat /\
    0 < common.CreateHNSNetworkInitialRetryDelay /\
    Forall (fun d => common.CreateHNSNetworkInitialRetryDelay <= d)
           (sleeps (calls_made sim.start w')) /\
    ((forall config v, exists err,
         fst (tryCreateHNSNetwork strings.ToLowerASCII sim.alwaysTransient config v) = Err err) ->
     exists msg, r = Err (foreignError msg)).
Proof.
  split; [apply elapse_timely; reflexivity|].
  apply (C5_retry_loop_terminates strings.ToLowerASCII sim.marshal sim.alwaysTransient
           (sim.net "net-1" "Ethernet0") sim.start
           (elapse_timely sim.alwaysTransient eq_refl)).
Defined.

(** C6 on the request of the driver test "tenant is not specified in
    request Options". *)
Lemma C6_tenant_missing_witness :
  let req := {| core.NetworkID := "MyAwesomeNet";
                core.Options := {[ "network" := "test_net" ]} |} in
  (core.Options req !! "tenant" = None \/ core.Options req !! "network" = None) /\
  core.CreateNetwork (core.simPorts [] []) req core.emptyStore =
    (Some core.InvalidRequest, core.emptyStore).
Proof.
  intros req.
  assert (H : core.Options req !! "tenant" = None)
    by (apply lookup_singleton_ne; discriminate).
  split; [left; exact H|].
  apply (C6_invalid_request_touches_nothing (core.simPorts [] []) req core.emptyStore
           (or_introl H)).
Defined.

(** C9 on a backend without networks, with the name and the ID of the
    wrapper's test. *)
Lemma C9_no_such_network_witness :
  let B := sim.healthy [] in
  b_list B sim.start "GET" "" "" = Done [] /\
  (forall n : HNSNetwork, In n [] -> Name n <> "asdf") /\
  b_network B sim.start "GET" "1234abcd" "" =
    Failed "HNS failed with error : Element not found" /\
  fst (GetHNSNetworkByName B "asdf" sim.start) = Ok None /\
  fst (GetHNSNetwork B "1234abcd" sim.start) =
    Err (foreignError "HNS failed with error : Element not found").
Proof.
  intros B. split; [reflexivity|]. split; [intros n []|]. split; [reflexivity|].
  apply (C9_lookup_by_name_absent B sim.start "asdf" [] "1234abcd"
           "HNS failed with error : Element not found" eq_refl
           (fun n (H : In n []) => match H with end) eq_refl).
Defined.

(** C10 on two networks that share one adapter. *)
Lemma C10_shared_adapter_witness :
  let a := sim.net "net-a" "Ethernet0" in
  let b := sim.net "net-b" "Ethernet0" in
  let B := sim.healthy [a; b] in
  let w1 := perform B (NetworkRequest "GET" "net-a" "") sim.start in
  let w2 := perform B (ListNetworkRequest "GET" "" "") w1 in
  let w3 := perform B (NetworkRequest "DELETE" "net-a" "") w2 in
  b_network B sim.start "GET" "net-a" "" = Done a /\
  b_list B w1 "GET" "" "" = Done [a; b] /\
  b_network B w2 "DELETE" "net-a" "" = Done a /\
  DeleteHNSNetwork B "net-a" sim.start = (None, w3).
Proof.
  intros a b B w1 w2 w3.
  split; [reflexivity|]. split; [reflexivity|]. split; [reflexivity|].
  apply (C10_wait_only_when_adapter_unused B "net-a" sim.start a a [a; b]
           eq_refl eq_refl eq_refl).
  exists b. split; [right; left; reflexivity|]. split; [discriminate | reflexivity].
Defined.

(** * Further properties of the code *)

Local Close Scope string_scope.

(** ** More on one creation attempt and on the retry loop *)

Lemma plain_not_create c : plain c -> isCreate c = false.
Proof. destruct c; simpl; trivial. Qed.

(** An attempt that returns an ID made two calls: the create request,
    served with a network of that ID, and the adapter wait, which
    succeeded. *)
Lemma tryCreateHNSNetwork_ok ToLower B config w id :
  fst (tryCreateHNSNetwork ToLower B config w) = Ok id ->
  exists created,
    b_network B w "POST" "" config = Done created /\
    Id created = id /\
    b_wait B (perform B (NetworkRequest "POST" "" config) w)
      common.HNSTransparentInterfaceName = None /\
    snd (tryCreateHNSNetwork ToLower B config w) =
    perform B (WaitIP common.HNSTransparentInterfaceName)
      (perform B (NetworkRequest "POST" "" config) w).
Proof.
  rewrite tryCreateHNSNetwork_run.
  destruct (b_network B w "POST" "" config) as [created|msg]; simpl; [|discriminate].
  destruct (b_wait B _ common.HNSTransparentInterfaceName) as [msg|] eqn:E; simpl;
    [discriminate|].
  intros [= <-]. exists created. auto.
Qed.

Section LoopFacts.

Variable ToLower : string -> string.
Variable B : Backend.
Variable config : string.
Variable creatingStart : Z.

Local Abbreviation attempt := (tryCreateHNSNetwork ToLower B config).
Local Abbreviation loop := (retryLoop ToLower B).
Local Abbreviation post := (NetworkRequest "POST" "" config).
Local Abbreviation gate := (WaitIP common.HNSTransparentInterfaceName).

(** A loop that returns an ID ends with a served create request followed
    by a successful adapter wait. *)
Lemma retryLoop_success fuel : forall delay w id w',
  loop fuel config creatingStart delay w = Some (Ok id, w') ->
  exists v created,
    reaches w v /\
    b_network B v "POST" "" config = Done created /\
    Id created = id /\
    b_wait B (perform B post v) common.HNSTransparentInterfaceName = None /\
    w' = perform B gate (perform B post v).
Proof.
  induction fuel as [|fuel IH]; intros delay w id w'; [discriminate|].
  rewrite retryLoop_pass.
  destruct (fst (attempt w)) as [id0|err] eqn:E.
  - intros [= <- <-].
    apply tryCreateHNSNetwork_ok in E as (created & H1 & H2 & H3 & H4).
    exists w, created. rewrite H4. repeat split; auto using reaches_refl.
  - destruct (asRecoverable err) as [inner|]; [|discriminate].
    destruct (_ <? _); [|discriminate].
    intros Hrun. apply IH in Hrun as (v & created & Hv & Hrest).
    exists v, created. split; [|exact Hrest].
    eapply reaches_trans; [apply tryCreateHNSNetwork_reaches|].
    eapply reaches_trans; [apply reaches_perform | exact Hv].
Qed.

(** Every create request of the loop carries the same configuration, and
    there is at least one. *)
Lemma retryLoop_requests fuel : forall delay w r w',
  loop fuel config creatingStart delay w = Some (r, w') ->
  exists cs,
    trace w' = (trace w ++ cs)%list /\
    Forall (fun c => isCreate c = true -> c = post) cs /\
    (1 <= attempts cs)%nat.
Proof.
  induction fuel as [|fuel IH]; intros delay w r w'; [discriminate|].
  rewrite retryLoop_pass.
  destruct (tryCreateHNSNetwork_calls ToLower B config w) as (cs & Htr & Hplain).
  assert (Hcs : Forall (fun c => isCreate c = true -> c = post) (post :: cs)).
  { constructor; [reflexivity|].
    eapply Forall_impl; [exact Hplain|]. intros c Hc Hcreate.
    apply plain_not_create in Hc. congruence. }
  assert (Hat : (1 <= attempts (post :: cs))%nat).
  { rewrite attempts_cons. simpl. lia. }
  assert (Hleave : forall r0, Some (r0, snd (attempt w)) = Some (r, w') ->
            exists cs0, trace w' = (trace w ++ cs0)%list /\
              Forall (fun c => isCreate c = true -> c = post) cs0 /\
              (1 <= attempts cs0)%nat).
  { intros r0 [= _ <-]. exists (post :: cs). auto. }
  destruct (fst (attempt w)) as [id0|err]; [apply Hleave|].
  destruct (asRecoverable err) as [inner|]; [|apply Hleave].
  destruct (_ <? _); [|apply Hleave].
  intros Hrun. apply IH in Hrun as (cs' & Htr' & Hcs' & _).
  exists ((post :: cs) ++ Sleep delay :: cs')%list. split; [|split].
  - rewrite Htr', trace_perform, Htr, <- !app_assoc. reflexivity.
  - apply Forall_app. split; [exact Hcs|]. constructor; [discriminate | exact Hcs'].
  - rewrite attempts_app. lia.
Qed.

End LoopFacts.

(** ** Creating a network: what a run shows *)

(** X1.  When [CreateHNSNetwork] returns an ID, the configuration was
    marshalled, the last two calls are a create request that the backend
    served with a network of exactly that ID and the adapter wait, which
    succeeded: an ID is never returned for a network whose adapter wait
    failed, nor taken from an earlier attempt. *)
Theorem CreateHNSNetwork_returns_created_id
    (ToLower : string -> string) (Marshal : HNSNetwork -> response string)
    (B : Backend) (fuel : nat) (configuration : HNSNetwork) (w w' : World) (id : string) :
  CreateHNSNetwork ToLower Marshal B fuel configuration w = Some (Ok id, w') ->
  exists config v created,
    Marshal configuration = Done config /\
    reaches w v /\
    b_network B v "POST" "" config = Done created /\
    Id created = id /\
    b_wait B (perform B (NetworkRequest "POST" "" config) v)
      common.HNSTransparentInterfaceName = None /\
    w' = perform B (WaitIP common.HNSTransparentInterfaceName)
           (perform B (NetworkRequest "POST" "" config) v).
Proof.
  unfold CreateHNSNetwork.
  destruct (Marshal configuration) as [config|msg]; [|discriminate].
  simpl. intros Hrun. apply retryLoop_success in Hrun as (v & created & Hrest).
  exists config, v, created. split; [reflexivity | exact Hrest].
Qed.

(** X2.  Every create request that [CreateHNSNetwork] sends is a POST with
    an empty path whose body is the marshalled configuration, the same at
    every retry, and at least one is sent; when marshalling fails, the
    error is returned and no call is made at all. *)
Theorem CreateHNSNetwork_requests_carry_configuration
    (ToLower : string -> string) (Marshal : HNSNetwork -> response string)
    (B : Backend) (fuel : nat) (configuration : HNSNetwork) (w w' : World)
    (r : result string) :
  CreateHNSNetwork ToLower Marshal B fuel configuration w = Some (r, w') ->
  match Marshal configuration with
  | Failed msg => r = Err (foreignError msg) /\ w' = w
  | Done config =>
      Forall (fun c => isCreate c = true -> c = NetworkRequest "POST" "" config)
             (calls_made w w') /\
      (1 <= attempts (calls_made w w'))%nat
  end.
Proof.
  unfold CreateHNSNetwork.
  destruct (Marshal configuration) as [config|msg].
  - simpl. intros Hrun. apply retryLoop_requests in Hrun as (cs & Htr & Hcs & Hat).
    rewrite (calls_made_app _ _ _ Htr). auto.
  - intros [= <- <-]. auto.
Qed.

Lemma nthDelay_sum m :
  (m <= 5)%nat -> fold_right Z.add 0 (map nthDelay (seq 0 m)) <= 155000.
Proof.
  intros H. do 6 (destruct m as [|m]; [vm_compute; discriminate|]). lia.
Qed.

(** X3.  With a clock that does not run backwards and pauses that last at
    least as long as asked, a run of [CreateHNSNetwork] pauses at most five
    times and asks for at most 155000 units of pause in all: the retries
    can overrun the budget of 90000, but never by more than that. *)
Theorem CreateHNSNetwork_total_pause
    (ToLower : string -> string) (Marshal : HNSNetwork -> response string)
    (B : Backend) (fuel : nat) (configuration : HNSNetwork) (w w' : World)
    (r : result string) :
  timely B ->
  CreateHNSNetwork ToLower Marshal B fuel configuration w = Some (r, w') ->
  (length (sleeps (calls_made w w')) <= 5)%nat /\
  totalPause (calls_made w w') <= 155000 /\
  common.CreateHNSNetworkTimeout < 155000.
Proof.
  intros HB Hrun.
  destruct (CreateHNSNetwork_analysis ToLower Marshal B HB configuration w)
    as (r0 & w0 & cs & m & Hm & Hsix & Htr & Hsl & _).
  apply CreateHNSNetwork_canonical with (fuel := fuel) in Hrun.
  rewrite Hsix in Hrun by lia. injection Hrun as <- <-.
  rewrite (calls_made_app _ _ _ Htr). unfold totalPause. rewrite Hsl.
  split; [|split].
  - rewrite length_map, length_seq. exact Hm.
  - apply nthDelay_sum, Hm.
  - reflexivity.
Qed.

(** X4.  A compensation that fails ends the provisioning: when a create
    request was served, the adapter wait failed and [DeleteHNSNetwork] of
    the new network failed too, the loop of [CreateHNSNetwork] returns the
    error of the delete at that very pass, whichever pass it is and
    whatever the delay and the time already spent, without pause or retry,
    and the error of the wait is dropped; so does [CreateHNSNetwork] when
    this happens at its first request. *)
Theorem CreateHNSNetwork_failed_compensation_is_fatal
    (ToLower : string -> string) (Marshal : HNSNetwork -> response string)
    (B : Backend) (fuel passes : nat) (creatingStart delay : Z)
    (configuration : HNSNetwork) (config : string)
    (w : World) (created : HNSNetwork) (msg : string) (deleteErr : error) :
  let w1 := perform B (NetworkRequest "POST" "" config) w in
  let w2 := perform B (WaitIP common.HNSTransparentInterfaceName) w1 in
  Marshal configuration = Done config ->
  b_network B w "POST" "" config = Done created ->
  b_wait B w1 common.HNSTransparentInterfaceName = Some msg ->
  fst (DeleteHNSNetwork B (Id created) w2) = Some deleteErr ->
  retryLoop ToLower B (S passes) config creatingStart delay w =
  Some (Err deleteErr, snd (DeleteHNSNetwork B (Id created) w2)) /\
  CreateHNSNetwork ToLower Marshal B (S fuel) configuration w =
  Some (Err deleteErr, snd (DeleteHNSNetwork B (Id created) w2)).
Proof.
  intros w1 w2 HM Hpost Hwait Hdel.
  assert (Hpass : forall n start d,
            retryLoop ToLower B (S n) config start d w =
            Some (Err deleteErr, snd (DeleteHNSNetwork B (Id created) w2))).
  { intros n start d.
    rewrite retryLoop_pass, tryCreateHNSNetwork_run, Hpost. fold w1. rewrite Hwait.
    fold w2. rewrite Hdel. simpl.
    destruct (DeleteHNSNetwork_error_foreign B (Id created) w2 deleteErr Hdel) as [m ->].
    reflexivity. }
  split; [apply Hpass|].
  unfold CreateHNSNetwork. rewrite HM. simpl. apply Hpass.
Qed.

(** X5.  When the first create request is served and the adapter is ready,
    [CreateHNSNetwork] returns the ID of the served network after these two
    calls, without any pause. *)
Theorem CreateHNSNetwork_served_at_once
    (ToLower : string -> string) (Marshal : HNSNetwork -> response string)
    (B : Backend) (fuel : nat) (configuration : HNSNetwork) (config : string)
    (w : World) (created : HNSNetwork) :
  let w1 := perform B (NetworkRequest "POST" "" config) w in
  Marshal configuration = Done config ->
  b_network B w "POST" "" config = Done created ->
  b_wait B w1 common.HNSTransparentInterfaceName = None ->
  CreateHNSNetwork ToLower Marshal B (S fuel) configuration w =
  Some (Ok (Id created), perform B (WaitIP common.HNSTransparentInterfaceName) w1).
Proof.
  intros w1 HM Hpost Hwait.
  unfold CreateHNSNetwork. rewrite HM. simpl.
  change (retryLoop ToLower B (S fuel) config (clock w)
            common.CreateHNSNetworkInitialRetryDelay w =
          Some (Ok (Id created), perform B (WaitIP common.HNSTransparentInterfaceName) w1)).
  rewrite retryLoop_pass, tryCreateHNSNetwork_run, Hpost. fold w1. rewrite Hwait.
  reflexivity.
Qed.

(** ** Deleting a network and looking one up *)

(** X6.  [DeleteHNSNetwork] sends the delete request if and only if the
    backend first served both the lookup of the network and the listing: a
    network that cannot be looked up, or a failed listing, means that
    nothing is deleted. *)
Theorem DeleteHNSNetwork_deletes_only_after_lookup
    (B : Backend) (hnsID : string) (w : World) :
  let w1 := perform B (NetworkRequest "GET" hnsID "") w in
  In (NetworkRequest "DELETE" hnsID "")
     (calls_made w (snd (DeleteHNSNetwork B hnsID w))) <->
  (exists toDelete, b_network B w "GET" hnsID "" = Done toDelete) /\
  (exists networks, b_list B w1 "GET" "" "" = Done networks).
Proof.
  intros w1. rewrite DeleteHNSNetwork_run. fold w1.
  destruct (b_network B w "GET" hnsID "") as [toDelete|msg]; simpl.
  - destruct (b_list B w1 "GET" "" "") as [networks|msg]; simpl.
    + split; [eauto|]. intros _.
      destruct (b_network B _ "DELETE" hnsID "") as [deleted|msg]; simpl;
        [destruct (adapterStillInUse toDelete networks); simpl|];
        match goal with
        | |- In _ (calls_made w ?v) =>
            erewrite (calls_made_app w v)
              by (unfold w1; rewrite ?trace_perform, <- ?app_assoc; reflexivity)
        end; simpl; auto.
    + rewrite (calls_made_app w _ [NetworkRequest "GET" hnsID ""; ListNetworkRequest "GET" "" ""])
        by (unfold w1; rewrite ?trace_perform, <- ?app_assoc; reflexivity).
      split.
      * intros [[=] | [[=] | []]].
      * intros [_ [networks [=]]].
  - rewrite (calls_made_app w _ [NetworkRequest "GET" hnsID ""]) by reflexivity.
    split.
    + intros [[=] | []].
    + intros [[toDelete [=]] _].
Qed.

(** X7.  [DeleteHNSNetwork] returns [nil] only when the backend served the
    delete request itself, after serving the lookup and the listing, and,
    if no other network uses the adapter, the adapter wait succeeded. *)
Theorem DeleteHNSNetwork_success_means_deleted
    (B : Backend) (hnsID : string) (w : World) :
  let w1 := perform B (NetworkRequest "GET" hnsID "") w in
  let w2 := perform B (ListNetworkRequest "GET" "" "") w1 in
  let w3 := perform B (NetworkRequest "DELETE" hnsID "") w2 in
  fst (DeleteHNSNetwork B hnsID w) = None ->
  exists toDelete networks deleted,
    b_network B w "GET" hnsID "" = Done toDelete /\
    b_list B w1 "GET" "" "" = Done networks /\
    b_network B w2 "DELETE" hnsID "" = Done deleted /\
    (adapterStillInUse toDelete networks = true \/
     b_wait B w3 (NetworkAdapterName toDelete) = None).
Proof.
  intros w1 w2 w3. rewrite DeleteHNSNetwork_run. fold w1 w2 w3.
  destruct (b_network B w "GET" hnsID "") as [toDelete|msg]; simpl; [|discriminate].
  destruct (b_list B w1 "GET" "" "") as [networks|msg]; simpl; [|discriminate].
  destruct (b_network B w2 "DELETE" hnsID "") as [deleted|msg]; simpl; [|discriminate].
  intros H. exists toDelete, networks, deleted. repeat split.
  destruct (adapterStillInUse toDelete networks); [left; reflexivity|]. right.
  simpl in H. destruct (b_wait B w3 (NetworkAdapterName toDelete)); [discriminate|reflexivity].
Qed.

Lemma firstNamed_some (name : string) (nets : list HNSNetwork) (n : HNSNetwork) :
  firstNamed name nets = Some n ->
  exists before after,
    nets = (before ++ n :: after)%list /\ Name n = name /\
    Forall (fun m => Name m <> name) before.
Proof.
  induction nets as [|m rest IH]; simpl; [discriminate|].
  destruct (String.eqb_spec (Name m) name) as [E|E].
  - intros [= <-]. exists [], rest. auto.
  - intros H. destruct (IH H) as (before & after & -> & Hn & Hb).
    exists (m :: before), after. auto.
Qed.

(** X8.  When the listing succeeds, [GetHNSNetworkByName] returns the first
    listed network that bears the name: the network returned has the name
    asked for and no network listed before it has; it returns no network
    exactly when no listed network bears the name. *)
Theorem GetHNSNetworkByName_first_match
    (B : Backend) (w : World) (name : string) (nets : list HNSNetwork) :
  b_list B w "GET" "" "" = Done nets ->
  match fst (GetHNSNetworkByName B name w) with
  | Ok (Some n) =>
      exists before after,
        nets = (before ++ n :: after)%list /\ Name n = name /\
        Forall (fun m => Name m <> name) before
  | Ok None => Forall (fun m => Name m <> name) nets
  | Err _ => False
  end.
Proof.
  intros Hlist. unfold GetHNSNetworkByName, HNSListNetworkRequest, bind, ret.
  rewrite Hlist. simpl.
  destruct (firstNamed name nets) as [n|] eqn:E.
  - apply firstNamed_some, E.
  - clear Hlist. induction nets as [|m rest IH]; [constructor|]. simpl in E.
    destruct (String.eqb_spec (Name m) name) as [E'|E']; [discriminate|].
    constructor; [exact E' | apply IH, E].
Qed.

(** ** The root network *)

Section RootRun.

Variable ToLower : string -> string.
Variable Marshal : HNSNetwork -> response string.
Variable B : Backend.
Variable fuel : nat.
Variable nameOfAdapterToUse : string.
Variable w : World.

Let w1 := perform B (WaitIP nameOfAdapterToUse) w.
Let w2 := perform B (ListNetworkRequest "GET" "" "") w1.

(** The whole of [InitRootHNSNetwork] in terms of the backend's answers
    and of [CreateHNSNetwork]. *)
Lemma InitRootHNSNetwork_run :
  InitRootHNSNetwork ToLower Marshal B fuel nameOfAdapterToUse w =
  match b_wait B w nameOfAdapterToUse with
  | Some msg => Some (Some (foreignError msg), w1)
  | None =>
      match b_list B w1 "GET" "" "" with
      | Failed msg => Some (Some (foreignError msg), w2)
      | Done nets =>
          match firstNamed common.RootNetworkName nets with
          | Some _ => Some (None, w2)
          | None =>
              match CreateHNSNetwork ToLower Marshal B fuel
                      (rootConfiguration nameOfAdapterToUse) w2 with
              | None => None
              | Some (Err err, w3) => Some (Some err, w3)
              | Some (Ok _, w3) => Some (None, w3)
              end
          end
      end
  end.
Proof.
  unfold InitRootHNSNetwork, WaitForValidIPReacquisition, GetHNSNetworkByName,
    HNSListNetworkRequest, bind, ret.
  fold w1. destruct (b_wait B w nameOfAdapterToUse) as [msg|]; simpl; [reflexivity|].
  fold w2. destruct (b_list B w1 "GET" "" "") as [nets|msg]; simpl; [|reflexivity].
  destruct (firstNamed common.RootNetworkName nets); reflexivity.
Qed.

End RootRun.

Lemma firstNamed_in (name : string) (nets : list HNSNetwork) (n : HNSNetwork) :
  In n nets -> Name n = name -> firstNamed name nets <> None.
Proof.
  intros Hin Hname E.
  induction nets as [|m rest IH]; [destruct Hin|]. simpl in E.
  destruct (String.eqb_spec (Name m) name) as [E'|E']; [discriminate|].
  destruct Hin as [-> | Hin]; [contradiction | exact (IH Hin E)].
Qed.

Lemma firstNamed_none_all (name : string) (nets : list HNSNetwork) :
  firstNamed name nets = None -> Forall (fun m => Name m <> name) nets.
Proof.
  induction nets as [|m rest IH]; [constructor|]. simpl.
  destruct (String.eqb_spec (Name m) name) as [E'|E']; [discriminate|].
  intros E. constructor; [exact E' | apply IH, E].
Qed.

(** X9.  [InitRootHNSNetwork] sends a create request only when the adapter
    wait succeeded, the listing succeeded and no listed network bears the
    root network's name: an adapter that is not ready, a failed listing or
    an existing root network each mean that nothing is created. *)
Theorem InitRootHNSNetwork_creates_only_when_absent
    (ToLower : string -> string) (Marshal : HNSNetwork -> response string)
    (B : Backend) (fuel : nat) (nameOfAdapterToUse : string) (w w' : World)
    (r : option error) :
  InitRootHNSNetwork ToLower Marshal B fuel nameOfAdapterToUse w = Some (r, w') ->
  (1 <= attempts (calls_made w w'))%nat ->
  b_wait B w nameOfAdapterToUse = None /\
  exists nets,
    b_list B (perform B (WaitIP nameOfAdapterToUse) w) "GET" "" "" = Done nets /\
    Forall (fun n => Name n <> common.RootNetworkName) nets.
Proof.
  rewrite InitRootHNSNetwork_run.
  destruct (b_wait B w nameOfAdapterToUse) as [msg|].
  - intros [= _ <-].
    rewrite (calls_made_app w _ [WaitIP nameOfAdapterToUse]) by reflexivity.
    unfold attempts. simpl. lia.
  - destruct (b_list B _ "GET" "" "") as [nets|msg].
    + destruct (firstNamed common.RootNetworkName nets) eqn:E.
      * intros [= _ <-].
        rewrite (calls_made_app w _ [WaitIP nameOfAdapterToUse; ListNetworkRequest "GET" "" ""])
          by (rewrite ?trace_perform, <- ?app_assoc; reflexivity).
        unfold attempts. simpl. lia.
      * intros _ _. split; [reflexivity|]. exists nets.
        split; [reflexivity | apply firstNamed_none_all, E].
    + intros [= _ <-].
      rewrite (calls_made_app w _ [WaitIP nameOfAdapterToUse; ListNetworkRequest "GET" "" ""])
        by (rewrite ?trace_perform, <- ?app_assoc; reflexivity).
      unfold attempts. simpl. lia.
Qed.

(** X10.  When the adapter is ready and the listing shows a network that
    bears the root network's name, [InitRootHNSNetwork] succeeds after the
    wait and the listing alone, whatever the fuel: running it again on a
    host that has its root network creates nothing. *)
Theorem InitRootHNSNetwork_existing_root
    (ToLower : string -> string) (Marshal : HNSNetwork -> response string)
    (B : Backend) (fuel : nat) (nameOfAdapterToUse : string) (w : World)
    (nets : list HNSNetwork) (rootNetwork : HNSNetwork) :
  let w1 := perform B (WaitIP nameOfAdapterToUse) w in
  b_wait B w nameOfAdapterToUse = None ->
  b_list B w1 "GET" "" "" = Done nets ->
  In rootNetwork nets ->
  Name rootNetwork = common.RootNetworkName ->
  InitRootHNSNetwork ToLower Marshal B fuel nameOfAdapterToUse w =
  Some (None, perform B (ListNetworkRequest "GET" "" "") w1).
Proof.
  intros w1 Hwait Hlist Hin Hname.
  rewrite InitRootHNSNetwork_run, Hwait. fold w1. rewrite Hlist.
  pose proof (firstNamed_in _ _ _ Hin Hname) as Hfound.
  destruct (firstNamed common.RootNetworkName nets); [reflexivity | contradiction].
Qed.


(** X12.  With a clock that does not run backwards and pauses that last at
    least as long as asked, [InitRootHNSNetwork] always returns: fuel for
    six passes of the retry loop is enough, and it sends at most six create
    requests. *)
Theorem InitRootHNSNetwork_terminates
    (ToLower : string -> string) (Marshal : HNSNetwork -> response string)
    (B : Backend) (nameOfAdapterToUse : string) (w : World) :
  timely B ->
  exists r w',
    (forall fuel, (6 <= fuel)%nat ->
       InitRootHNSNetwork ToLower Marshal B fuel nameOfAdapterToUse w = Some (r, w')) /\
    (attempts (calls_made w w') <= 6)%nat.
Proof.
  intros HB.
  set (w1 := perform B (WaitIP nameOfAdapterToUse) w).
  set (w2 := perform B (ListNetworkRequest "GET" "" "") w1).
  assert (H1 : calls_made w w1 = [WaitIP nameOfAdapterToUse])
    by (apply calls_made_app; reflexivity).
  assert (H2 : trace w2 = (trace w ++ [WaitIP nameOfAdapterToUse; ListNetworkRequest "GET" "" ""])%list)
    by (unfold w2, w1; rewrite ?trace_perform, <- ?app_assoc; reflexivity).
  destruct (b_wait B w nameOfAdapterToUse) as [msg|] eqn:Hwait.
  { exists (Some (foreignError msg)), w1. split.
    - intros fuel _. rewrite InitRootHNSNetwork_run, Hwait. reflexivity.
    - rewrite H1. unfold attempts. simpl. lia. }
  destruct (b_list B w1 "GET" "" "") as [nets|msg] eqn:Hlist.
  2: { exists (Some (foreignError msg)), w2. split.
       - intros fuel _. rewrite InitRootHNSNetwork_run, Hwait. fold w1. rewrite Hlist.
         reflexivity.
       - rewrite (calls_made_app _ _ _ H2). unfold attempts. simpl. lia. }
  destruct (firstNamed common.RootNetworkName nets) as [n|] eqn:Hfound.
  { exists None, w2. split.
    - intros fuel _. rewrite InitRootHNSNetwork_run, Hwait. fold w1. rewrite Hlist, Hfound.
      reflexivity.
    - rewrite (calls_made_app _ _ _ H2). unfold attempts. simpl. lia. }
  destruct (CreateHNSNetwork_analysis ToLower Marshal B HB
              (rootConfiguration nameOfAdapterToUse) w2)
    as (r & w' & cs & m & Hm & Hsix & Htr & _ & Hat & _).
  exists (match r with Ok _ => None | Err err => Some err end), w'. split.
  - intros fuel Hfuel. rewrite InitRootHNSNetwork_run, Hwait. fold w1.
    rewrite Hlist, Hfound. fold w2. rewrite (Hsix fuel Hfuel).
    destruct r; reflexivity.
  - erewrite (calls_made_app w w')
      by (rewrite Htr, H2, <- app_assoc; reflexivity).
    rewrite attempts_app, !attempts_cons. simpl. lia.
Qed.

(** X13.  [InitRootHNSNetwork] returns [nil] only when a root network is
    there: either the listing showed a network of that name, or a create
    request carrying the marshalled root configuration was served and the
    adapter wait after it succeeded, these being the last two calls. *)
Theorem InitRootHNSNetwork_success_means_root_exists
    (ToLower : string -> string) (Marshal : HNSNetwork -> response string)
    (B : Backend) (fuel : nat) (nameOfAdapterToUse : string) (w w' : World) :
  let w1 := perform B (WaitIP nameOfAdapterToUse) w in
  InitRootHNSNetwork ToLower Marshal B fuel nameOfAdapterToUse w = Some (None, w') ->
  (exists nets rootNetwork,
     b_list B w1 "GET" "" "" = Done nets /\ In rootNetwork nets /\
     Name rootNetwork = common.RootNetworkName) \/
  (exists config v created,
     Marshal (rootConfiguration nameOfAdapterToUse) = Done config /\
     b_network B v "POST" "" config = Done created /\
     b_wait B (perform B (NetworkRequest "POST" "" config) v)
       common.HNSTransparentInterfaceName = None /\
     w' = perform B (WaitIP common.HNSTransparentInterfaceName)
            (perform B (NetworkRequest "POST" "" config) v)).
Proof.
  intros w1. rewrite InitRootHNSNetwork_run. fold w1.
  destruct (b_wait B w nameOfAdapterToUse) as [msg|]; [discriminate|].
  destruct (b_list B w1 "GET" "" "") as [nets|msg]; [|discriminate].
  destruct (firstNamed common.RootNetworkName nets) as [n|] eqn:Hfound.
  - intros _. left. apply firstNamed_some in Hfound as (before & after & -> & Hn & _).
    exists (before ++ n :: after)%list, n. split; [reflexivity|]. split; [|exact Hn].
    apply in_or_app. right. left. reflexivity.
  - unfold CreateHNSNetwork.
    destruct (Marshal (rootConfiguration nameOfAdapterToUse)) as [config|msg];
      [|discriminate].
    simpl.
    destruct (retryLoop ToLower B fuel config _ _ _) as [[[id|e] w3]|] eqn:E;
      [|discriminate|discriminate].
    intros [= <-]. right.
    apply retryLoop_success in E as (v & created & _ & Hpost & _ & Hwait & Hw).
    exists config, v, created. auto.
Qed.

(** X14.  Every create request that [InitRootHNSNetwork] sends is a POST
    with an empty path whose body is what [json.Marshal] makes of this
    configuration: the name "ContrailRootNetwork", the type "transparent",
    the adapter it was given, the one subnet "0.0.0.0/24", and nothing
    else set. *)
Theorem InitRootHNSNetwork_requests_root_configuration
    (ToLower : string -> string) (Marshal : HNSNetwork -> response string)
    (B : Backend) (fuel : nat) (nameOfAdapterToUse : string) (w w' : World)
    (r : option error) :
  InitRootHNSNetwork ToLower Marshal B fuel nameOfAdapterToUse w = Some (r, w') ->
  Forall (fun c => isCreate c = true ->
                   exists config,
                     Marshal {| Id := "";
                                Name := "ContrailRootNetwork";
                                Type_ := "transparent";
                                NetworkAdapterName := nameOfAdapterToUse;
                                Subnets := [ {| AddressPrefix := "0.0.0.0/24";
                                                GatewayAddress := "" |} ] |}
                     = Done config /\
                     c = NetworkRequest "POST" "" config)
         (calls_made w w').
Proof.
  change {| Id := ""; Name := "ContrailRootNetwork"; Type_ := "transparent";
            NetworkAdapterName := nameOfAdapterToUse;
            Subnets := [ {| AddressPrefix := "0.0.0.0/24"; GatewayAddress := "" |} ] |}
    with (rootConfiguration nameOfAdapterToUse).
  set (w1 := perform B (WaitIP nameOfAdapterToUse) w).
  set (w2 := perform B (ListNetworkRequest "GET" "" "") w1).
  assert (H2 : trace w2 = (trace w ++ [WaitIP nameOfAdapterToUse; ListNetworkRequest "GET" "" ""])%list)
    by (unfold w2, w1; rewrite ?trace_perform, <- ?app_assoc; reflexivity).
  assert (Hfirst : forall v, v = w1 \/ v = w2 ->
            Forall (fun c => isCreate c = true ->
                             exists config,
                               Marshal (rootConfiguration nameOfAdapterToUse) = Done config /\
                               c = NetworkRequest "POST" "" config)
                   (calls_made w v)).
  { intros v [-> | ->].
    - rewrite (calls_made_app w w1 [WaitIP nameOfAdapterToUse]) by reflexivity.
      repeat constructor; discriminate.
    - rewrite (calls_made_app _ _ _ H2). repeat constructor; discriminate. }
  rewrite InitRootHNSNetwork_run. fold w1 w2.
  destruct (b_wait B w nameOfAdapterToUse) as [msg|]; [intros [= _ <-]; auto|].
  destruct (b_list B w1 "GET" "" "") as [nets|msg]; [|intros [= _ <-]; auto].
  destruct (firstNamed common.RootNetworkName nets); [intros [= _ <-]; auto|].
  unfold CreateHNSNetwork.
  destruct (Marshal (rootConfiguration nameOfAdapterToUse)) as [config|msg];
    [|intros [= _ <-]; auto].
  simpl.
  destruct (retryLoop ToLower B fuel config _ _ _) as [[r0 w3]|] eqn:E; [|discriminate].
  intros Hout. assert (w3 = w') as -> by (destruct r0; congruence).
  apply retryLoop_requests in E as (cs & Htr & Hcs & _).
  erewrite (calls_made_app w w') by (rewrite Htr, H2, <- app_assoc; reflexivity).
  apply Forall_app. split; [repeat constructor; discriminate|].
  eapply Forall_impl; [exact Hcs|]. intros c Hc Hcreate. eauto.
Qed.

(** ** The signature of the transient failure *)

Lemma append_assoc (a b c : string) :
  String.append (String.append a b) c = String.append a (String.append b c).
Proof.
  induction a as [|x a IH]; [reflexivity|].
  change (String x (String.append (String.append a b) c) =
          String x (String.append a (String.append b c))).
  rewrite IH. reflexivity.
Qed.

(** X15.  The transient signature is recognised wherever the two phrases
    stand in the lower-cased message and in either order; a message where
    one of them does not occur is not transient. *)
Theorem transientSignature_any_order (a b c s : string) :
  transientSignature
    (String.append a (String.append "hns failed"
       (String.append b (String.append "unspecified error" c)))) = true /\
  transientSignature
    (String.append a (String.append "unspecified error"
       (String.append b (String.append "hns failed" c)))) = true /\
  (transientSignature s = true ->
   strings.occurs_in "hns failed" s /\ strings.occurs_in "unspecified error" s).
Proof.
  split; [|split].
  - apply transientSignature_spec. split.
    + exists a. eexists. reflexivity.
    + exists (String.append a (String.append "hns failed" b)), c.
      rewrite append_assoc. reflexivity.
  - apply transientSignature_spec. split.
    + exists (String.append a (String.append "unspecified error" b)), c.
      rewrite append_assoc. reflexivity.
    + exists a. eexists. reflexivity.
  - apply transientSignature_spec.
Qed.

(** ** Endpoints *)

Lemma collectOfNetwork_filter (netID : string) (eps : list endpoints.HNSEndpoint) :
  forall epsInNetwork,
    endpoints.collectOfNetwork netID eps epsInNetwork =
    (epsInNetwork ++
     List.filter (fun ep => String.eqb (endpoints.VirtualNetwork ep) netID) eps)%list.
Proof.
  induction eps as [|ep rest IH]; intros acc; simpl.
  - symmetry. apply app_nil_r.
  - destruct (String.eqb (endpoints.VirtualNetwork ep) netID).
    + rewrite IH, <- app_assoc. reflexivity.
    + apply IH.
Qed.

Lemma ListHNSEndpointsOfNetwork_run
    (B : endpoints.Backend) (netID : string) (h : list endpoints.Call)
    (eps : list endpoints.HNSEndpoint) :
  endpoints.b_listEndpoints B h = Done eps ->
  endpoints.ListHNSEndpointsOfNetwork B netID h =
  (Ok (List.filter (fun ep => String.eqb (endpoints.VirtualNetwork ep) netID) eps),
   (h ++ [endpoints.ListEndpointRequest])%list).
Proof.
  intros Hlist.
  unfold endpoints.ListHNSEndpointsOfNetwork, endpoints.ListHNSEndpoints,
    endpoints.HNSListEndpointRequest.
  rewrite Hlist, collectOfNetwork_filter. reflexivity.
Qed.

(** X16.  When the listing succeeds, [ListHNSEndpointsOfNetwork] returns
    exactly the listed endpoints whose [VirtualNetwork] is the network
    asked for, in the order of the listing: each endpoint returned belongs
    to that network, and no listed endpoint of that network is left out. *)
Theorem ListHNSEndpointsOfNetwork_exact
    (B : endpoints.Backend) (netID : string) (h : list endpoints.Call)
    (eps : list endpoints.HNSEndpoint) :
  endpoints.b_listEndpoints B h = Done eps ->
  exists found,
    fst (endpoints.ListHNSEndpointsOfNetwork B netID h) = Ok found /\
    found = List.filter (fun ep => String.eqb (endpoints.VirtualNetwork ep) netID) eps /\
    (forall ep, In ep found <-> In ep eps /\ endpoints.VirtualNetwork ep = netID).
Proof.
  intros Hlist. rewrite (ListHNSEndpointsOfNetwork_run B netID h eps Hlist).
  eexists. split; [reflexivity|]. split; [reflexivity|].
  intros ep. rewrite filter_In, String.eqb_eq. reflexivity.
Qed.

(** X17.  Over one and the same listing, the endpoints returned for two
    different networks share no endpoint, and together they are no more
    than the endpoints listed. *)
Theorem ListHNSEndpointsOfNetwork_disjoint
    (B : endpoints.Backend) (netA netB : string) (h : list endpoints.Call)
    (eps : list endpoints.HNSEndpoint) :
  let first := endpoints.ListHNSEndpointsOfNetwork B netA h in
  let second := endpoints.ListHNSEndpointsOfNetwork B netB (snd first) in
  endpoints.b_listEndpoints B h = Done eps ->
  endpoints.b_listEndpoints B (snd first) = Done eps ->
  netA <> netB ->
  exists inA inB,
    fst first = Ok inA /\ fst second = Ok inB /\
    (forall ep, In ep inA -> ~ In ep inB) /\
    (length inA + length inB <= length eps)%nat.
Proof.
  intros first second H1 H2 Hne. unfold second, first in *.
  rewrite (ListHNSEndpointsOfNetwork_run B netA h eps H1) in *. simpl in *.
  rewrite (ListHNSEndpointsOfNetwork_run B netB _ eps H2). simpl.
  eexists. eexists. split; [reflexivity|]. split; [reflexivity|]. split.
  - intros ep HA HB. apply filter_In in HA as [_ HA]. apply filter_In in HB as [_ HB].
    apply String.eqb_eq in HA, HB. congruence.
  - clear H1 H2. induction eps as [|ep rest IH]; simpl; [lia|].
    destruct (String.eqb_spec (endpoints.VirtualNetwork ep) netA) as [EA|EA];
      destruct (String.eqb_spec (endpoints.VirtualNetwork ep) netB) as [EB|EB];
      simpl; try lia. congruence.
Qed.

(** X18.  When the listing succeeds, [GetHNSEndpointByName] returns the
    first listed endpoint that bears the name, and no endpoint exactly when
    none bears it; it never returns an error then. *)
Theorem GetHNSEndpointByName_first_match
    (B : endpoints.Backend) (name : string) (h : list endpoints.Call)
    (eps : list endpoints.HNSEndpoint) :
  endpoints.b_listEndpoints B h = Done eps ->
  match fst (endpoints.GetHNSEndpointByName B name h) with
  | Ok (Some ep) =>
      exists before after,
        eps = (before ++ ep :: after)%list /\ endpoints.Name ep = name /\
        Forall (fun other => endpoints.Name other <> name) before
  | Ok None => Forall (fun other => endpoints.Name other <> name) eps
  | Err _ => False
  end.
Proof.
  intros Hlist.
  unfold endpoints.GetHNSEndpointByName, endpoints.HNSListEndpointRequest.
  rewrite Hlist. simpl. clear Hlist.
  induction eps as [|ep rest IH]; simpl; [constructor|].
  destruct (String.eqb_spec (endpoints.Name ep) name) as [E|E].
  - exists [], rest. auto.
  - destruct (endpoints.firstNamed name rest) as [found|].
    + destruct IH as (before & after & -> & Hn & Hb).
      exists (ep :: before), after. auto.
    + constructor; assumption.
Qed.


(** ** The Hyper-V forwarding extension *)

Local Open Scope string_scope.

Lemma appendEach_app (c optionals : list string) :
  hyperv_extension.appendEach c optionals = (c ++ optionals)%list.
Proof.
  revert c. induction optionals as [|opt rest IH]; intros c; simpl.
  - symmetry. apply app_nil_r.
  - rewrite IH, <- app_assoc. reflexivity.
Qed.

Lemma callOnSwitch_run
    (sh : hyperv_extension.Powershell)
    (hvvr : hyperv_extension.hyperVvRouterForwardingExtension)
    (command : string) (optionals : list string) (h : list (list string)) :
  let c := hyperv_extension.commandLine hvvr command optionals in
  hyperv_extension.callOnSwitch sh hvvr command optionals h =
  ((fst (fst (sh h c)), snd (sh h c)), (h ++ [c])%list).
Proof.
  intros c. unfold hyperv_extension.callOnSwitch. rewrite appendEach_app.
  change ([command; "-VMSwitchName"; hyperv_extension.quoted (hyperv_extension.vswitchName hvvr);
           "-Name"; hyperv_extension.quoted (hyperv_extension.extensionName hvvr)]
          ++ optionals)%list with c.
  destruct (sh h c) as [[stdout stderr] err]. reflexivity.
Qed.

(** X20.  [IsEnabled] and [IsRunning] answer [true] exactly when the
    inspecting command ended without error and printed exactly "True";
    when the command fails they answer [false] with the error, whatever
    was printed. *)
Theorem IsEnabled_IsRunning_true_only_on_True
    (sh : hyperv_extension.Powershell)
    (hvvr : hyperv_extension.hyperVvRouterForwardingExtension)
    (h : list (list string)) :
  let inspect property :=
    sh h (hyperv_extension.commandLine hvvr "Get-VMSwitchExtension"
            ["|"; "Select"; "-Expand"; hyperv_extension.quoted property]) in
  (fst (fst (hyperv_extension.IsEnabled sh hvvr h)) = true <->
   fst (fst (inspect "Enabled")) = "True" /\ snd (inspect "Enabled") = None) /\
  (fst (fst (hyperv_extension.IsRunning sh hvvr h)) = true <->
   fst (fst (inspect "Running")) = "True" /\ snd (inspect "Running") = None) /\
  snd (fst (hyperv_extension.IsEnabled sh hvvr h)) = snd (inspect "Enabled") /\
  snd (fst (hyperv_extension.IsRunning sh hvvr h)) = snd (inspect "Running").
Proof.
  intros inspect.
  unfold hyperv_extension.IsEnabled, hyperv_extension.IsRunning,
    hyperv_extension.inspectExtensionProperty.
  rewrite !callOnSwitch_run. unfold inspect.
  repeat match goal with
         | |- context [sh h ?c] =>
             let out := fresh "out" in let e := fresh "e" in
             destruct (sh h c) as [[out ?] e]; simpl; destruct e; simpl
         end;
    rewrite ?String.eqb_eq;
    repeat split; try tauto; try discriminate; intros [_ [=]].
Qed.

(** X21.  Each operation on an extension made by
    [NewHyperVvRouterForwardingExtension] runs exactly one PowerShell
    command; its command line names, after the command, the switch given at
    construction and the extension "vRouter forwarding extension", both in
    double quotes, and the inspections add the pipe that expands the
    property. *)
Theorem extension_command_lines
    (sh : hyperv_extension.Powershell) (vswitchName : string) (h : list (list string)) :
  let hvvr := hyperv_extension.NewHyperVvRouterForwardingExtension vswitchName in
  let quoted := hyperv_extension.quoted in
  let target := ["-VMSwitchName"; quoted vswitchName;
                 "-Name"; quoted "vRouter forwarding extension"] in
  let expand property := ["|"; "Select"; "-Expand"; quoted property] in
  snd (hyperv_extension.Enable sh hvvr h) =
    (h ++ ["Enable-VMSwitchExtension" :: target])%list /\
  snd (hyperv_extension.Disable sh hvvr h) =
    (h ++ ["Disable-VMSwitchExtension" :: target])%list /\
  snd (hyperv_extension.IsEnabled sh hvvr h) =
    (h ++ ["Get-VMSwitchExtension" :: target ++ expand "Enabled"])%list /\
  snd (hyperv_extension.IsRunning sh hvvr h) =
    (h ++ ["Get-VMSwitchExtension" :: target ++ expand "Running"])%list.
Proof.
  intros hvvr quoted target expand.
  unfold hyperv_extension.Enable, hyperv_extension.Disable, hyperv_extension.IsEnabled,
    hyperv_extension.IsRunning, hyperv_extension.inspectExtensionProperty.
  rewrite !callOnSwitch_run.
  repeat match goal with
         | |- context [snd (sh h ?c)] => destruct (snd (sh h c))
         end; repeat split; reflexivity.
Qed.

Local Close Scope string_scope.

(** * The further properties at work on the simulated backends *)

(** X1 on the backend whose first create request fails transiently: the ID
    comes from the second request. *)
Lemma CreateHNSNetwork_returns_created_id_witness :
  let B := sim.transientOnce in
  let post := NetworkRequest "POST" "" "Contrail:net-1" in
  let w' := {| clock := 5000;
               trace := [post; Sleep 5000; post; WaitIP "vEthernet (HNSTransparent)"] |} in
  CreateHNSNetwork strings.ToLowerASCII sim.marshal B 6 (sim.net "net-1" "Ethernet0")
    sim.start = Some (Ok "net-1", w') /\
  exists config v created,
    sim.marshal (sim.net "net-1" "Ethernet0") = Done config /\
    reaches sim.start v /\
    b_network B v "POST" "" config = Done created /\
    Id created = "net-1" /\
    b_wait B (perform B (NetworkRequest "POST" "" config) v)
      common.HNSTransparentInterfaceName = None /\
    w' = perform B (WaitIP common.HNSTransparentInterfaceName)
           (perform B (NetworkRequest "POST" "" config) v).
Proof.
  intros B post w'. split; [reflexivity|].
  apply (CreateHNSNetwork_returns_created_id strings.ToLowerASCII sim.marshal B 6
           (sim.net "net-1" "Ethernet0") sim.start w' "net-1" eq_refl).
Defined.

(** X2 on the backend whose every create request fails transiently: six
    requests, all with the same body. *)
Lemma CreateHNSNetwork_requests_carry_configuration_witness :
  let B := sim.alwaysTransient in
  let post := NetworkRequest "POST" "" "Contrail:net-1" in
  let w' := {| clock := 155000;
               trace := [post; Sleep 5000; post; Sleep 10000; post; Sleep 20000;
                         post; Sleep 40000; post; Sleep 80000; post] |} in
  CreateHNSNetwork strings.ToLowerASCII sim.marshal B 6 (sim.net "net-1" "Ethernet0")
    sim.start = Some (Err (foreignError sim.transientMessage), w') /\
  Forall (fun c => isCreate c = true -> c = post) (calls_made sim.start w') /\
  (1 <= attempts (calls_made sim.start w'))%nat.
Proof.
  intros B post w'. split; [reflexivity|].
  apply (CreateHNSNetwork_requests_carry_configuration strings.ToLowerASCII sim.marshal B 6
           (sim.net "net-1" "Ethernet0") sim.start w'
           (Err (foreignError sim.transientMessage)) eq_refl).
Defined.

(** X3 on the same backend, which reaches the bound: five pauses, 155000
    in all. *)
Lemma CreateHNSNetwork_total_pause_witness :
  let B := sim.alwaysTransient in
  let post := NetworkRequest "POST" "" "Contrail:net-1" in
  let w' := {| clock := 155000;
               trace := [post; Sleep 5000; post; Sleep 10000; post; Sleep 20000;
                         post; Sleep 40000; post; Sleep 80000; post] |} in
  timely B /\
  CreateHNSNetwork strings.ToLowerASCII sim.marshal B 6 (sim.net "net-1" "Ethernet0")
    sim.start = Some (Err (foreignError sim.transientMessage), w') /\
  totalPause (calls_made sim.start w') = 155000 /\
  (length (sleeps (calls_made sim.start w')) <= 5)%nat /\
  totalPause (calls_made sim.start w') <= 155000 /\
  common.CreateHNSNetworkTimeout < 155000.
Proof.
  intros B post w'. split; [apply elapse_timely; reflexivity|].
  split; [reflexivity|]. split; [reflexivity|].
  apply (CreateHNSNetwork_total_pause strings.ToLowerASCII sim.marshal B 6
           (sim.net "net-1" "Ethernet0") sim.start w'
           (Err (foreignError sim.transientMessage))
           (elapse_timely B eq_refl) eq_refl).
Defined.

(** X4 on a backend whose first create request fails transiently and
    whose second is served while the adapter stays down: at the second
    pass the wait fails, the wait inside the delete fails too, and the loop
    ends there. *)
Lemma CreateHNSNetwork_failed_compensation_is_fatal_witness :
  let B := transientThenAdapterDown in
  let timeout := "timeout waiting for a valid IP address"%string in
  let post := NetworkRequest "POST" "" "Contrail:net-1" in
  let w := {| clock := 5000; trace := [post; Sleep 5000] |} in
  let w1 := perform B post w in
  let w2 := perform B (WaitIP common.HNSTransparentInterfaceName) w1 in
  let w' := {| clock := 5000;
               trace := [post; Sleep 5000; post; WaitIP "vEthernet (HNSTransparent)";
                         NetworkRequest "GET" "net-1" ""; ListNetworkRequest "GET" "" "";
                         NetworkRequest "DELETE" "net-1" ""; WaitIP "Ethernet0"] |} in
  sim.marshal (sim.net "net-1" "Ethernet0") = Done "Contrail:net-1"%string /\
  b_network B w "POST" "" "Contrail:net-1" = Done (sim.net "net-1" "Ethernet0") /\
  b_wait B w1 common.HNSTransparentInterfaceName = Some timeout /\
  fst (DeleteHNSNetwork B "net-1" w2) = Some (foreignError timeout) /\
  CreateHNSNetwork strings.ToLowerASCII sim.marshal B 6 (sim.net "net-1" "Ethernet0")
    sim.start = Some (Err (foreignError timeout), w') /\
  retryLoop strings.ToLowerASCII B 1 "Contrail:net-1" 0 10000 w =
  Some (Err (foreignError timeout), snd (DeleteHNSNetwork B "net-1" w2)).
Proof.
  intros B timeout post w w1 w2 w'.
  split; [reflexivity|]. split; [reflexivity|]. split; [reflexivity|].
  split; [reflexivity|]. split; [reflexivity|].
  apply (CreateHNSNetwork_failed_compensation_is_fatal strings.ToLowerASCII sim.marshal B
           0 0 0 10000 (sim.net "net-1" "Ethernet0") "Contrail:net-1" w
           (sim.net "net-1" "Ethernet0") timeout (foreignError timeout)
           eq_refl eq_refl eq_refl eq_refl).
Defined.

(** X5 on a backend that serves at once. *)
Lemma CreateHNSNetwork_served_at_once_witness :
  let B := servedAtOnce in
  let w1 := perform B (NetworkRequest "POST" "" "Contrail:net-1") sim.start in
  sim.marshal (sim.net "net-1" "Ethernet0") = Done "Contrail:net-1"%string /\
  b_network B sim.start "POST" "" "Contrail:net-1" =
    Done (sim.net "Contrail:net-1" "Ethernet0") /\
  b_wait B w1 common.HNSTransparentInterfaceName = None /\
  CreateHNSNetwork strings.ToLowerASCII sim.marshal B 1 (sim.net "net-1" "Ethernet0")
    sim.start =
  Some (Ok "Contrail:net-1"%string, perform B (WaitIP common.HNSTransparentInterfaceName) w1).
Proof.
  intros B w1. split; [reflexivity|]. split; [reflexivity|]. split; [reflexivity|].
  apply (CreateHNSNetwork_served_at_once strings.ToLowerASCII sim.marshal B 0
           (sim.net "net-1" "Ethernet0") "Contrail:net-1" sim.start
           (sim.net "Contrail:net-1" "Ethernet0") eq_refl eq_refl eq_refl).
Defined.

(** X7 on two networks that share one adapter. *)
Lemma DeleteHNSNetwork_success_means_deleted_witness :
  let a := sim.net "net-a" "Ethernet0" in
  let b := sim.net "net-b" "Ethernet0" in
  let B := sim.healthy [a; b] in
  let w1 := perform B (NetworkRequest "GET" "net-a" "") sim.start in
  let w2 := perform B (ListNetworkRequest "GET" "" "") w1 in
  let w3 := perform B (NetworkRequest "DELETE" "net-a" "") w2 in
  fst (DeleteHNSNetwork B "net-a" sim.start) = None /\
  exists toDelete networks deleted,
    b_network B sim.start "GET" "net-a" "" = Done toDelete /\
    b_list B w1 "GET" "" "" = Done networks /\
    b_network B w2 "DELETE" "net-a" "" = Done deleted /\
    (adapterStillInUse toDelete networks = true \/
     b_wait B w3 (NetworkAdapterName toDelete) = None).
Proof.
  intros a b B w1 w2 w3. split; [reflexivity|].
  apply (DeleteHNSNetwork_success_means_deleted B "net-a" sim.start eq_refl).
Defined.

(** X8 on a listing of two networks, asked for the second. *)
Lemma GetHNSNetworkByName_first_match_witness :
  let a := sim.net "net-a" "Ethernet0" in
  let b := sim.net "net-b" "Ethernet0" in
  let B := sim.healthy [a; b] in
  b_list B sim.start "GET" "" "" = Done [a; b] /\
  fst (GetHNSNetworkByName B "Contrail:net-b" sim.start) = Ok (Some b) /\
  match fst (GetHNSNetworkByName B "Contrail:net-b" sim.start) with
  | Ok (Some n) =>
      exists before after,
        [a; b] = (before ++ n :: after)%list /\ Name n = "Contrail:net-b"%string /\
        Forall (fun m => Name m <> "Contrail:net-b"%string) before
  | Ok None => Forall (fun m => Name m <> "Contrail:net-b"%string) [a; b]
  | Err _ => False
  end.
Proof.
  intros a b B. split; [reflexivity|]. split; [reflexivity|].
  apply (GetHNSNetworkByName_first_match B sim.start "Contrail:net-b" [a; b] eq_refl).
Defined.

(** X9 on a host without networks whose backend serves at once: the root
    network is created. *)
Lemma InitRootHNSNetwork_creates_only_when_absent_witness :
  let B := servedAtOnce in
  let w' := {| clock := 0;
               trace := [WaitIP "Ethernet0"; ListNetworkRequest "GET" "" "";
                         NetworkRequest "POST" "" "ContrailRootNetwork";
                         WaitIP "vEthernet (HNSTransparent)"] |} in
  InitRootHNSNetwork strings.ToLowerASCII sim.marshal B 1 "Ethernet0" sim.start =
    Some (None, w') /\
  (1 <= attempts (calls_made sim.start w'))%nat /\
  b_wait B sim.start "Ethernet0" = None /\
  exists nets,
    b_list B (perform B (WaitIP "Ethernet0") sim.start) "GET" "" "" = Done nets /\
    Forall (fun n => Name n <> common.RootNetworkName) nets.
Proof.
  intros B w'.
  assert (H : (1 <= attempts (calls_made sim.start w'))%nat) by (vm_compute; lia).
  split; [reflexivity|]. split; [exact H|].
  apply (InitRootHNSNetwork_creates_only_when_absent strings.ToLowerASCII sim.marshal B 1
           "Ethernet0" sim.start w' None eq_refl H).
Defined.

(** X10 on a host that lists its root network. *)
Lemma InitRootHNSNetwork_existing_root_witness :
  let rootNetwork := {| Id := "root-id"; Name := common.RootNetworkName;
                        Type_ := "transparent"; NetworkAdapterName := "Ethernet0";
                        Subnets := [] |} in
  let B := sim.healthy [rootNetwork] in
  let w1 := perform B (WaitIP "Ethernet0") sim.start in
  b_wait B sim.start "Ethernet0" = None /\
  b_list B w1 "GET" "" "" = Done [rootNetwork] /\
  In rootNetwork [rootNetwork] /\
  Name rootNetwork = common.RootNetworkName /\
  InitRootHNSNetwork strings.ToLowerASCII sim.marshal B 0 "Ethernet0" sim.start =
  Some (None, perform B (ListNetworkRequest "GET" "" "") w1).
Proof.
  intros rootNetwork B w1.
  split; [reflexivity|]. split; [reflexivity|].
  split; [left; reflexivity|]. split; [reflexivity|].
  apply (InitRootHNSNetwork_existing_root strings.ToLowerASCII sim.marshal B 0 "Ethernet0"
           sim.start [rootNetwork] rootNetwork eq_refl eq_refl
           (or_introl eq_refl) eq_refl).
Defined.


(** X12 on the backend whose every create request fails transiently. *)
Lemma InitRootHNSNetwork_terminates_witness :
  timely sim.alwaysTransient /\
  exists r w',
    (forall fuel, (6 <= fuel)%nat ->
       InitRootHNSNetwork strings.ToLowerASCII sim.marshal sim.alwaysTransient fuel
         "Ethernet0" sim.start = Some (r, w')) /\
    (attempts (calls_made sim.start w') <= 6)%nat.
Proof.
  split; [apply elapse_timely; reflexivity|].
  apply (InitRootHNSNetwork_terminates strings.ToLowerASCII sim.marshal sim.alwaysTransient
           "Ethernet0" sim.start (elapse_timely sim.alwaysTransient eq_refl)).
Defined.

(** X13 on a host without networks whose backend serves at once. *)
Lemma InitRootHNSNetwork_success_means_root_exists_witness :
  let B := servedAtOnce in
  let w1 := perform B (WaitIP "Ethernet0") sim.start in
  let w' := {| clock := 0;
               trace := [WaitIP "Ethernet0"; ListNetworkRequest "GET" "" "";
                         NetworkRequest "POST" "" "ContrailRootNetwork";
                         WaitIP "vEthernet (HNSTransparent)"] |} in
  InitRootHNSNetwork strings.ToLowerASCII sim.marshal B 1 "Ethernet0" sim.start =
    Some (None, w') /\
  ((exists nets rootNetwork,
      b_list B w1 "GET" "" "" = Done nets /\ In rootNetwork nets /\
      Name rootNetwork = common.RootNetworkName) \/
   (exists config v created,
      sim.marshal (rootConfiguration "Ethernet0") = Done config /\
      b_network B v "POST" "" config = Done created /\
      b_wait B (perform B (NetworkRequest "POST" "" config) v)
        common.HNSTransparentInterfaceName = None /\
      w' = perform B (WaitIP common.HNSTransparentInterfaceName)
             (perform B (NetworkRequest "POST" "" config) v))).
Proof.
  intros B w1 w'. split; [reflexivity|].
  apply (InitRootHNSNetwork_success_means_root_exists strings.ToLowerASCII sim.marshal B 1
           "Ethernet0" sim.start w' eq_refl).
Defined.

(** X14 on the same host, with a marshaller that writes every field
    down. *)
Lemma InitRootHNSNetwork_requests_root_configuration_witness :
  let B := servedAtOnce in
  let body := "ContrailRootNetwork|transparent|Ethernet0|0.0.0.0/24"%string in
  let w' := {| clock := 0;
               trace := [WaitIP "Ethernet0"; ListNetworkRequest "GET" "" "";
                         NetworkRequest "POST" "" body;
                         WaitIP "vEthernet (HNSTransparent)"] |} in
  InitRootHNSNetwork strings.ToLowerASCII marshalFields B 1 "Ethernet0" sim.start =
    Some (None, w') /\
  Forall (fun c => isCreate c = true ->
                   exists config,
                     marshalFields {| Id := "";
                                      Name := "ContrailRootNetwork";
                                      Type_ := "transparent";
                                      NetworkAdapterName := "Ethernet0";
                                      Subnets := [ {| AddressPrefix := "0.0.0.0/24";
                                                      GatewayAddress := "" |} ] |}
                     = Done config /\
                     c = NetworkRequest "POST" "" config)
         (calls_made sim.start w').
Proof.
  intros B body w'. split; [reflexivity|].
  apply (InitRootHNSNetwork_requests_root_configuration strings.ToLowerASCII marshalFields B 1
           "Ethernet0" sim.start w' None eq_refl).
Defined.

(** X16 on three endpoints of two networks. *)
Lemma ListHNSEndpointsOfNetwork_exact_witness :
  let e1 := endpoints.simEndpoint "ep-1" "name1" "net-a" in
  let e2 := endpoints.simEndpoint "ep-2" "name2" "net-b" in
  let e3 := endpoints.simEndpoint "ep-3" "name3" "net-a" in
  let B := endpoints.simBackend [e1; e2; e3] in
  endpoints.b_listEndpoints B [] = Done [e1; e2; e3] /\
  fst (endpoints.ListHNSEndpointsOfNetwork B "net-a" []) = Ok [e1; e3] /\
  exists found,
    fst (endpoints.ListHNSEndpointsOfNetwork B "net-a" []) = Ok found /\
    found = List.filter (fun ep => String.eqb (endpoints.VirtualNetwork ep) "net-a")
              [e1; e2; e3] /\
    (forall ep, In ep found <-> In ep [e1; e2; e3] /\ endpoints.VirtualNetwork ep = "net-a"%string).
Proof.
  intros e1 e2 e3 B. split; [reflexivity|]. split; [reflexivity|].
  apply (ListHNSEndpointsOfNetwork_exact B "net-a" [] [e1; e2; e3] eq_refl).
Defined.

(** X17 on the same endpoints. *)
Lemma ListHNSEndpointsOfNetwork_disjoint_witness :
  let e1 := endpoints.simEndpoint "ep-1" "name1" "net-a" in
  let e2 := endpoints.simEndpoint "ep-2" "name2" "net-b" in
  let e3 := endpoints.simEndpoint "ep-3" "name3" "net-a" in
  let eps := [e1; e2; e3] in
  let B := endpoints.simBackend eps in
  let first := endpoints.ListHNSEndpointsOfNetwork B "net-a" [] in
  let second := endpoints.ListHNSEndpointsOfNetwork B "net-b" (snd first) in
  endpoints.b_listEndpoints B [] = Done eps /\
  endpoints.b_listEndpoints B (snd first) = Done eps /\
  "net-a"%string <> "net-b"%string /\
  exists inA inB,
    fst first = Ok inA /\ fst second = Ok inB /\
    (forall ep, In ep inA -> ~ In ep inB) /\
    (length inA + length inB <= length eps)%nat.
Proof.
  intros e1 e2 e3 eps B first second.
  assert (Hne : "net-a"%string <> "net-b"%string) by discriminate.
  split; [reflexivity|]. split; [reflexivity|]. split; [exact Hne|].
  apply (ListHNSEndpointsOfNetwork_disjoint B "net-a" "net-b" [] eps eq_refl eq_refl Hne).
Defined.

(** X18 on the endpoints of the wrapper's test, asked for "name2". *)
Lemma GetHNSEndpointByName_first_match_witness :
  let e1 := endpoints.simEndpoint "ep-1" "name1" "net-a" in
  let e2 := endpoints.simEndpoint "ep-2" "name2" "net-a" in
  let e3 := endpoints.simEndpoint "ep-3" "name3" "net-a" in
  let B := endpoints.simBackend [e1; e2; e3] in
  endpoints.b_listEndpoints B [] = Done [e1; e2; e3] /\
  fst (endpoints.GetHNSEndpointByName B "name2" []) = Ok (Some e2) /\
  match fst (endpoints.GetHNSEndpointByName B "name2" []) with
  | Ok (Some ep) =>
      exists before after,
        [e1; e2; e3] = (before ++ ep :: after)%list /\ endpoints.Name ep = "name2"%string /\
        Forall (fun other => endpoints.Name other <> "name2"%string) before
  | Ok None => Forall (fun other => endpoints.Name other <> "name2"%string) [e1; e2; e3]
  | Err _ => False
  end.
Proof.
  intros e1 e2 e3 B. split; [reflexivity|]. split; [reflexivity|].
  apply (GetHNSEndpointByName_first_match B "name2" [] [e1; e2; e3] eq_refl).
Defined.
